(** * tap-gitlab: the REST client policies of [tap_gitlab/client.py]

    A shallow embedding of the stream classes of [client.py] (URL base,
    URL resolver, native and emulated pagination, group partitions and
    record post-processing) together with the properties the
    specification states about them.

    Python [str] values are represented by their UTF-8 byte sequences
    (Rocq [string]); substring search and replacement on the bytes agree
    with those on code points because UTF-8 is self-synchronising. *)

From Stdlib Require Import ZArith Ascii String List Bool Lia.
From stdpp Require Import base option list strings gmap pretty.

(** ** Exceptions and fallible computations *)

Inductive exn :=
  | ValueError (msg : string)
  | TypeError
  | AttributeError
  | KeyError
  | IndexError
  | AssertionError
  | LibraryError (msg : string).

Inductive outcome (A : Type) :=
  | Ok (a : A)
  | Raise (e : exn).
Arguments Ok {A} a.
Arguments Raise {A} e.

(** The error monad, with stdpp's [x ← m; k] notation. *)
Global Instance outcome_bind : MBind outcome := λ A B k m,
  match m with
  | Ok a => k a
  | Raise e => Raise e
  end.

Global Instance outcome_ret : MRet outcome := λ A a, Ok a.

(** [try: m except IndexError: h] *)
Definition except_IndexError {A} (m : outcome A) (h : outcome A) : outcome A :=
  match m with
  | Raise IndexError => h
  | _ => m
  end.

(** ** Python string methods *)

Module Str.

(** [s.startswith(p)] *)
Fixpoint startswith (s p : string) : bool :=
  match p, s with
  | EmptyString, _ => true
  | String _ _, EmptyString => false
  | String a p', String b s' => if Ascii.eqb a b then startswith s' p' else false
  end.

(** [sub in s] *)
Fixpoint contains (s sub : string) : bool :=
  startswith s sub ||
  match s with
  | EmptyString => false
  | String _ s' => contains s' sub
  end.

(** [c in chars] for a single character. *)
Fixpoint has_char (chars : string) (c : ascii) : bool :=
  match chars with
  | EmptyString => false
  | String a chars' => Ascii.eqb a c || has_char chars' c
  end.

(** Every character of [s] satisfies [p]. *)
Fixpoint all_chars (p : ascii → bool) (s : string) : bool :=
  match s with
  | EmptyString => true
  | String c s' => p c && all_chars p s'
  end.

(** Left-to-right scan of [s.replace(old, new)] for a non-empty [old]:
    [skip] counts the characters of a match still to be dropped. *)
Fixpoint replace_go (skip : nat) (s old new : string) : string :=
  match s with
  | EmptyString => EmptyString
  | String c s' =>
      match skip with
      | S k => replace_go k s' old new
      | O =>
          if startswith s old
          then new +:+ replace_go (String.length old - 1) s' old new
          else String c (replace_go 0 s' old new)
      end
  end.

(** [s.replace("", new)] puts [new] before every character and at the end. *)
Fixpoint replace_empty (s new : string) : string :=
  match s with
  | EmptyString => new
  | String c s' => new +:+ String c (replace_empty s' new)
  end.

(** [s.replace(old, new)]: every non-overlapping occurrence, leftmost first. *)
Definition replace (s old new : string) : string :=
  match old with
  | EmptyString => replace_empty s new
  | String _ _ => replace_go 0 s old new
  end.

(** [s.rstrip(chars)] *)
Fixpoint rstrip (s chars : string) : string :=
  match s with
  | EmptyString => EmptyString
  | String c s' =>
      match rstrip s' chars with
      | EmptyString => if has_char chars c then EmptyString else String c EmptyString
      | r => String c r
      end
  end.

(** The pieces of [s.split(sep)] for a non-empty [sep]; the head of the
    result is the piece being read. *)
Fixpoint split_go (skip : nat) (s sep : string) : list string :=
  match s with
  | EmptyString => [EmptyString]
  | String c s' =>
      match skip with
      | S k => split_go k s' sep
      | O =>
          if startswith s sep
          then EmptyString :: split_go (String.length sep - 1) s' sep
          else match split_go 0 s' sep with
               | piece :: rest => String c piece :: rest
               | [] => [String c EmptyString]
               end
      end
  end.

(** [s.split(sep)]; an empty separator raises [ValueError]. *)
Definition split (s sep : string) : outcome (list string) :=
  match sep with
  | EmptyString => Raise (ValueError "empty separator")
  | String _ _ => Ok (split_go 0 s sep)
  end.

(** [sep.join(parts)] *)
Fixpoint join (sep : string) (parts : list string) : string :=
  match parts with
  | [] => EmptyString
  | [p] => p
  | p :: ps => p +:+ sep +:+ join sep ps
  end.

Definition lower_char (c : ascii) : ascii :=
  let n := nat_of_ascii c in
  if (65 <=? n) && (n <=? 90) then ascii_of_nat (n + 32) else c.

(** [s.lower()] on ASCII letters. *)
Fixpoint lower (s : string) : string :=
  match s with
  | EmptyString => EmptyString
  | String c s' => String (lower_char c) (lower s')
  end.

End Str.

(** ** Python values, dictionaries and truthiness *)

(** An insertion-ordered dictionary with string keys: the first binding of
    a key is the live one, and the operations never create a second.
    Values are those of JSON documents and settings; floating-point
    numbers, which no method below inspects, are left out. *)
Abbreviation dict V := (list (string * V)).

#[warnings="-register-all"] Inductive pyval :=
  | PNone
  | PBool (b : bool)
  | PInt (n : Z)
  | PStr (s : string)
  | PList (l : list pyval)
  | PDict (d : dict pyval).

(** [d.get(k)] *)
Fixpoint dict_get {V} (k : string) (d : dict V) : option V :=
  match d with
  | [] => None
  | (k', v) :: d' => if String.eqb k' k then Some v else dict_get k d'
  end.

(** [k in d] *)
Definition dict_in {V} (k : string) (d : dict V) : bool :=
  match dict_get k d with Some _ => true | None => false end.

(** [d[k] = v]: an existing key keeps its position, a new one goes last. *)
Fixpoint dict_set {V} (k : string) (v : V) (d : dict V) : dict V :=
  match d with
  | [] => [(k, v)]
  | (k', v') :: d' =>
      if String.eqb k' k then (k', v) :: d' else (k', v') :: dict_set k v d'
  end.

(** [d.update(other)] *)
Definition dict_update {V} (d other : dict V) : dict V :=
  fold_left (λ acc kv, dict_set kv.1 kv.2 acc) other d.

(** [len(x)] *)
Definition py_len (x : pyval) : outcome nat :=
  match x with
  | PStr s => Ok (String.length s)
  | PList l => Ok (length l)
  | PDict d => Ok (length d)
  | _ => Raise TypeError
  end.

Fixpoint last_char (s : string) : option ascii :=
  match s with
  | EmptyString => None
  | String c EmptyString => Some c
  | String _ s' => last_char s'
  end.

(** [x[-1]] *)
Definition py_getitem_last (x : pyval) : outcome pyval :=
  match x with
  | PList l => match last l with Some v => Ok v | None => Raise IndexError end
  | PStr s =>
      match last_char s with
      | Some c => Ok (PStr (String c EmptyString))
      | None => Raise IndexError
      end
  | PDict _ => Raise KeyError
  | _ => Raise TypeError
  end.

(** [x[key]] for a string key, or [None] as key. *)
Definition py_getitem_key (x : pyval) (key : option string) : outcome pyval :=
  match x with
  | PDict d =>
      match key with
      | Some k => match dict_get k d with Some v => Ok v | None => Raise KeyError end
      | None => Raise KeyError
      end
  | _ => Raise TypeError
  end.

(** [l[0]] on a list. *)
Definition list_getitem_0 {A} (l : list A) : outcome A :=
  match l with
  | x :: _ => Ok x
  | [] => Raise IndexError
  end.

(** [key in x] for a string key and a container [x]. *)
Definition py_in (key : string) (x : pyval) : outcome bool :=
  match x with
  | PDict d => Ok (dict_in key d)
  | PList l =>
      Ok (existsb (λ e, match e with PStr s => String.eqb s key | _ => false end) l)
  | PStr s => Ok (Str.contains s key)
  | _ => Raise TypeError
  end.

(** Truth value of an [Optional[str]], as in [if token:] and [not token]. *)
Definition py_truthy (token : option string) : bool :=
  match token with
  | Some (String _ _) => true
  | _ => false
  end.

(** [datetime]: [dt_micros] counts microseconds, of the UTC instant for an
    aware value and of the wall clock for a naive one. *)
Record datetime := { dt_micros : Z; dt_aware : bool }.

(** [a < b] on [datetime]: naive and aware values do not compare. *)
Definition dt_lt (a b : datetime) : outcome bool :=
  if Bool.eqb (dt_aware a) (dt_aware b)
  then Ok (dt_micros a <? dt_micros b)%Z
  else Raise TypeError.

(** ** [urllib.parse.quote_plus] *)

Module Urllib.

(** The characters [quote] never escapes: letters, digits and [_.-~]. *)
Definition always_safe (c : ascii) : bool :=
  let n := nat_of_ascii c in
  ((65 <=? n) && (n <=? 90)) || ((97 <=? n) && (n <=? 122)) ||
  ((48 <=? n) && (n <=? 57)) || Str.has_char "_.-~" c.

Definition hex_digit (n : nat) : ascii :=
  match String.get n "0123456789ABCDEF" with
  | Some c => c
  | None => "0"%char
  end.

(** One byte of the input: kept, turned into [+] (a space), or [%XX]. *)
Definition quote_plus_byte (c : ascii) : string :=
  if Ascii.eqb c " " then "+"
  else if always_safe c then String c EmptyString
  else
    let n := nat_of_ascii c in
    String "%" (String (hex_digit (n / 16)) (String (hex_digit (n mod 16)) EmptyString)).

(** [quote_plus(s)] with the default [safe=''], on the UTF-8 bytes of [s]. *)
Fixpoint quote_plus (s : string) : string :=
  match s with
  | EmptyString => EmptyString
  | String c s' => quote_plus_byte c +:+ quote_plus s'
  end.

End Urllib.

(** ** The libraries and the framework the client calls into

    [urlparse] and [parse_qs] (urllib), [parse] (dateutil), [repr] of
    containers and the extraction framework's generic [post_process] are
    not part of the repository: the client is modelled over any
    implementation of them. *)

(** The six components [urlparse] returns ([url_path] is its [path]). *)
Record ParseResult := {
  scheme : string;
  netloc : string;
  url_path : string;
  params : string;
  query : string;
  fragment : string;
}.

Class Library := {
  (** [urllib.parse.urlparse(url)] *)
  urlparse : string → outcome ParseResult;
  (** [urllib.parse.parse_qs(qs)]: each name with the list of its values. *)
  parse_qs : string → gmap string (list string);
  (** [dateutil.parser.parse(timestr)] *)
  parse : pyval → outcome datetime;
  (** [str(val)] of a list or a dictionary. *)
  py_repr : pyval → string;
  (** [RESTStream.post_process(row, context)] of the framework: the
      record to go on with, or [None] to discard it. *)
  super_post_process :
    dict pyval → option (dict pyval) → outcome (option (dict pyval));
}.

(** [str(val)] *)
Definition py_str `{Library} (val : pyval) : string :=
  match val with
  | PStr s => s
  | PNone => "None"
  | PBool true => "True"
  | PBool false => "False"
  | PInt n => pretty n
  | PList _ | PDict _ => py_repr val
  end.

(** ** Requests and responses *)

(** [requests.structures.CaseInsensitiveDict]: values stored under the
    lower-cased header name. *)
Record CaseInsensitiveDict := { store : gmap string string }.

Definition cid_get (h : CaseInsensitiveDict) (key : string) : option string :=
  store h !! Str.lower key.

Record PreparedRequest := { url : string }.

Record Response := {
  request : PreparedRequest;
  headers : CaseInsensitiveDict;
  (** the outcome of [response.json()] *)
  json : outcome pyval;
}.

(** ** Streams *)

Definition API_TOKEN_KEY : string := "Private-Token".
Definition API_TOKEN_SETTING_NAME : string := "private_token".
Definition DEFAULT_REST_API_URL : string := "https://gitlab.com/api/v4".
Definition DEFAULT_GRAPHQL_API_URL : string := "https://gitlab.com/api".

(** The attributes of a stream object the client reads. *)
Record Stream := {
  name : string;
  path : option string;
  config : dict pyval;
  schema : dict pyval;
  replication_key : option string;
  bookmark_param_name : string;
}.

(** [for x in xs: state = body(state, x)], stopping at the first raise. *)
Fixpoint for_each {S A} (body : S → A → outcome S) (xs : list A) (state : S)
    : outcome S :=
  match xs with
  | [] => Ok state
  | x :: xs' => state' ← body state x; for_each body xs' state'
  end.

Module GitLabStream.
Section methods.
Context `{Library}.

(** [url_base]: the API URL root, [/api/v4] appended when it has no path. *)
Definition url_base (self : Stream) : outcome string :=
  api_url ←
    match dict_get "api_url" (config self) with
    | None => Ok DEFAULT_REST_API_URL
    | Some (PStr s) => Ok s
    | Some _ => Raise AttributeError
    end;
  let result := Str.rstrip api_url "/" in
  parsed ← urlparse result;
  match url_path parsed with
  | EmptyString => Ok (result +:+ "/api/v4")
  | String _ _ => Ok result
  end.

(** [get_next_page_token]: the [X-Next-Page] response header, if any. *)
Definition get_next_page_token (self : Stream) (response : Response)
    (previous_token : option string) : option string :=
  cid_get (headers response) "X-Next-Page".

(** [_url_encode] *)
Definition _url_encode (val : pyval) : string :=
  Urllib.quote_plus (py_str val).

(** One turn of the loop of [get_url] over [vals.items()]. The debug
    trace written for [{project_path}] does not change [url]. *)
Definition get_url_step (url : string) (item : string * pyval) : string :=
  let search_text := Str.join "" ["{"; item.1; "}"] in
  if Str.contains url search_text
  then Str.replace url search_text (_url_encode item.2)
  else url.

(** [get_url] *)
Definition get_url (self : Stream) (context : option (dict pyval))
    : outcome string :=
  base ← url_base self;
  let url := Str.join "" [base; default "" (path self)] in
  let vals := dict_update (config self) (default [] context) in
  Ok (fold_left get_url_step vals url).

(** One turn of the loop of [post_process] over [context.items()]. *)
Definition post_process_step (properties : pyval) (result : dict pyval)
    (item : string * pyval) : outcome (dict pyval) :=
  declared ← py_in item.1 properties;
  if declared && negb (dict_in item.1 result)
  then Ok (dict_set item.1 item.2 result)
  else Ok result.

(** [post_process] *)
Definition post_process (self : Stream) (row : dict pyval)
    (context : option (dict pyval)) : outcome (option (dict pyval)) :=
  result ← super_post_process row context;
  match result with
  | None => Ok None
  | Some result =>
      match context with
      | None => Raise AssertionError
      | Some context =>
          let properties :=
            default (PDict []) (dict_get "properties" (schema self)) in
          result ← for_each (post_process_step properties) context result;
          Ok (Some result)
      end
  end.

End methods.
End GitLabStream.

Module NoSinceProjectBasedStream.
Section methods.
Context `{Library}.

(** The cutoff read back from the query string of the request sent. *)
Definition cutoff_of (self : Stream) (response : Response)
    : outcome (option string) :=
  parsed ← urlparse (url (request response));
  let request_parameters := parse_qs (query parsed) in
  except_IndexError
    (match request_parameters !! bookmark_param_name self with
     | Some values =>
         first ← list_getitem_0 values;
         Ok (Some (Str.replace first " " "+"))
     | None => Ok None
     end)
    (Ok None).

(** [get_next_page_token]: an emulated [since] parameter. *)
Definition get_next_page_token (self : Stream) (response : Response)
    (previous_token : option string) : outcome (option string) :=
  cutoff ← cutoff_of self response;
  match cutoff with
  | Some cutoff =>
      results ← json response;
      n ← py_len results;
      if Nat.eqb n 0 then Ok None
      else
        last ← py_getitem_last results;
        stamp ← py_getitem_key last (replication_key self);
        a ← parse stamp;
        b ← parse (PStr cutoff);
        earlier ← dt_lt a b;
        if (earlier : bool) then Ok None
        else Ok (GitLabStream.get_next_page_token self response previous_token)
  | None => Ok (GitLabStream.get_next_page_token self response previous_token)
  end.

End methods.
End NoSinceProjectBasedStream.

Module GroupBasedStream.

Definition missing_groups_message (self : Stream) : string :=
  "Missing `groups` setting which is required for the '"
  +:+ name self +:+ "' stream.".

Definition no_partition_type_message (self : Stream) (path : string) : string :=
  "Could not detect partition type for Gitlab stream '"
  +:+ name self +:+ "' (" +:+ path +:+ "). "
  +:+ "Expected a URL path containing '{project_path}' or '{group_id}'. ".

(** [partitions] *)
Definition partitions (self : Stream) : outcome (list (dict pyval)) :=
  match path self with
  | None => Raise TypeError
  | Some path =>
      if Str.contains path "{group_id}" then
        if negb (dict_in "groups" (config self))
        then Raise (ValueError (missing_groups_message self))
        else
          match dict_get "groups" (config self) with
          | Some (PStr groups) =>
              ids ← Str.split groups " ";
              Ok (map (λ id, [("group_id", PStr id)]) ids)
          | _ => Raise AttributeError
          end
      else Raise (ValueError (no_partition_type_message self path))
  end.

End GroupBasedStream.

(** ** What the specification says, in its own terms *)

Module Template.

(** A URL template read as literal characters and [{name}] placeholders. *)
Inductive segment :=
  | Lit (c : ascii)
  | Hole (key : string).

Definition is_brace (c : ascii) : bool :=
  Ascii.eqb c "{" || Ascii.eqb c "}".

(** No [{] and no [}] in [s]. *)
Fixpoint brace_free (s : string) : bool :=
  match s with
  | EmptyString => true
  | String c s' => negb (is_brace c) && brace_free s'
  end.

Fixpoint literal (s : string) : list segment :=
  match s with
  | EmptyString => []
  | String c s' => Lit c :: literal s'
  end.

(** The text read since an opening brace that found no closing one. *)
Definition flush (pending : option string) : list segment :=
  match pending with
  | Some key => Lit "{" :: literal key
  | None => []
  end.

(** One pass over the template; [pending] is the name read since the
    last [{], if one is open. A placeholder is [{], a name without
    braces, [}]. *)
Fixpoint scan_go (pending : option string) (s : string) : list segment :=
  match s with
  | EmptyString => flush pending
  | String c s' =>
      if Ascii.eqb c "{" then flush pending ++ scan_go (Some EmptyString) s'
      else if Ascii.eqb c "}" then
        match pending with
        | Some key => Hole key :: scan_go None s'
        | None => Lit c :: scan_go None s'
        end
      else
        match pending with
        | Some key => scan_go (Some (key +:+ String c EmptyString)) s'
        | None => Lit c :: scan_go None s'
        end
  end.

Definition scan (template : string) : list segment := scan_go None template.

Definition text_of (seg : segment) : string :=
  match seg with
  | Lit c => String c EmptyString
  | Hole key => "{" +:+ key +:+ "}"
  end.

(** The template a list of segments spells. *)
Fixpoint flat (segs : list segment) : string :=
  match segs with
  | [] => EmptyString
  | seg :: segs' => text_of seg +:+ flat segs'
  end.

(** Configuration overlaid by context: the context wins on a shared key. *)
Definition merged (config context : dict pyval) (key : string) : option pyval :=
  match dict_get key context with
  | Some v => Some v
  | None => dict_get key config
  end.

(** A placeholder with a value is replaced by the encoded value, any
    other text stays. *)
Definition fill (encode : pyval → string) (vals : string → option pyval)
    (seg : segment) : string :=
  match seg with
  | Lit c => String c EmptyString
  | Hole key =>
      match vals key with
      | Some v => encode v
      | None => text_of seg
      end
  end.

(** Every placeholder of the template resolved at once. *)
Fixpoint resolve (encode : pyval → string) (vals : string → option pyval)
    (segs : list segment) : string :=
  match segs with
  | [] => EmptyString
  | seg :: segs' => fill encode vals seg +:+ resolve encode vals segs'
  end.

(** Braces occur in the template only around placeholder names. *)
Definition plain (seg : segment) : bool :=
  match seg with
  | Lit c => negb (is_brace c)
  | Hole key => brace_free key
  end.

Definition well_braced (template : string) : bool :=
  forallb plain (scan template).

End Template.

Module Groups.

(** The identifiers of a whitespace-separated list: its maximal runs
    without a whitespace character, as [s.split()] reads them. *)
Definition identifiers (s : string) : list string := String.words s.

(** The partition context of one group. *)
Definition context_of (id : string) : dict pyval := [("group_id", PStr id)].

(** No space character in [s]. *)
Definition space_free (s : string) : bool := negb (Str.has_char s " ").

End Groups.

(** ** Sample implementations of the libraries

    Small executable stand-ins, used to run the client on concrete
    requests and responses: a URL splitter without parameter and IPv6
    handling, a query-string reader over ASCII, a reader of fixed-width
    ISO 8601 timestamps, and a framework that keeps every record. *)

Module Sample.

(** [s] cut before the first character satisfying [stop]. *)
Fixpoint cut (stop : ascii → bool) (s : string) : string * string :=
  match s with
  | EmptyString => (EmptyString, EmptyString)
  | String c s' =>
      if stop c then (EmptyString, s)
      else let '(before, rest) := cut stop s' in (String c before, rest)
  end.

(** [s.split(c, 1)] as a pair; the second part is empty without [c]. *)
Definition cut_at (c : ascii) (s : string) : string * string :=
  let '(before, rest) := cut (Ascii.eqb c) s in
  match rest with
  | EmptyString => (before, EmptyString)
  | String _ rest' => (before, rest')
  end.

Definition is_alpha (c : ascii) : bool :=
  let n := nat_of_ascii c in
  ((65 <=? n) && (n <=? 90)) || ((97 <=? n) && (n <=? 122)).

Definition is_digit (c : ascii) : bool :=
  let n := nat_of_ascii c in (48 <=? n) && (n <=? 57).

Definition is_scheme_char (c : ascii) : bool :=
  is_alpha c || is_digit c || Str.has_char "+-." c.

Definition split_scheme (url : string) : string * string :=
  let '(before, rest) := cut (Ascii.eqb ":") url in
  match before, rest with
  | String c _, String _ rest' =>
      if is_alpha c && Str.all_chars is_scheme_char before
      then (Str.lower before, rest')
      else (EmptyString, url)
  | _, _ => (EmptyString, url)
  end.

Definition urlparse (url : string) : outcome ParseResult :=
  let '(scheme, rest) := split_scheme url in
  let '(netloc, rest) :=
    match rest with
    | String "/" (String "/" rest') => cut (Str.has_char "/?#") rest'
    | _ => (EmptyString, rest)
    end in
  let '(rest, fragment) := cut_at "#" rest in
  let '(path, query) := cut_at "?" rest in
  Ok {| scheme := scheme; netloc := netloc; url_path := path;
        params := EmptyString; query := query; fragment := fragment |}.

Definition hex_value (c : ascii) : option nat :=
  let n := nat_of_ascii c in
  if is_digit c then Some (n - 48)
  else if (65 <=? n) && (n <=? 70) then Some (n - 55)
  else if (97 <=? n) && (n <=? 102) then Some (n - 87)
  else None.

(** [unquote]: every [%XX] turned into its byte. *)
Fixpoint unquote (s : string) : string :=
  match s with
  | EmptyString => EmptyString
  | String c s' =>
      match s' with
      | String a (String b rest) =>
          match Ascii.eqb c "%", hex_value a, hex_value b with
          | true, Some x, Some y => String (ascii_of_nat (16 * x + y)) (unquote rest)
          | _, _, _ => String c (unquote s')
          end
      | _ => String c (unquote s')
      end
  end.

(** The (name, value) pairs of a query string; blank values are dropped. *)
Definition parse_qsl (qs : string) : list (string * string) :=
  omap (λ name_value,
    let '(before, rest) := cut (Ascii.eqb "=") name_value in
    match rest with
    | String _ (String _ _ as value) =>
        Some (unquote (Str.replace before "+" " "),
              unquote (Str.replace value "+" " "))
    | _ => None
    end) (Str.split_go 0 qs "&").

Definition parse_qs (qs : string) : gmap string (list string) :=
  fold_left (λ parsed nv,
    <[nv.1 := default [] (parsed !! nv.1) ++ [nv.2]]> parsed) (parse_qsl qs) ∅.

(** [n] decimal digits at the head of [s]. *)
Fixpoint digits (n : nat) (acc : Z) (s : string) : option (Z * string) :=
  match n with
  | O => Some (acc, s)
  | S n' =>
      match s with
      | String c s' =>
          if is_digit c
          then digits n' (10 * acc + Z.of_nat (nat_of_ascii c - 48))%Z s'
          else None
      | EmptyString => None
      end
  end.

Definition expect (p : ascii → bool) (s : string) : option string :=
  match s with
  | String c s' => if p c then Some s' else None
  | EmptyString => None
  end.

(** Days from 1970-01-01 to the given civil date. *)
Definition days_from_civil (y m d : Z) : Z :=
  let y' := (if m <=? 2 then y - 1 else y)%Z in
  let era := (y' / 400)%Z in
  let yoe := (y' - era * 400)%Z in
  let doy := ((153 * (if m <=? 2 then m + 9 else m - 3) + 2) / 5 + d - 1)%Z in
  let doe := (yoe * 365 + yoe / 4 - yoe / 100 + doy)%Z in
  (era * 146097 + doe - 719468)%Z.

(** The UTC offset at the end of a timestamp, in seconds. *)
Definition read_offset (s : string) : option (option Z) :=
  match s with
  | EmptyString => Some None
  | String "Z" EmptyString => Some (Some 0%Z)
  | String sign s' =>
      '(h, s1) ← digits 2 0 s';
      s2 ← expect (Ascii.eqb ":") s1;
      '(m, s3) ← digits 2 0 s2;
      let seconds := (h * 3600 + m * 60)%Z in
      match s3 with
      | EmptyString =>
          if Ascii.eqb sign "+" then Some (Some seconds)
          else if Ascii.eqb sign "-" then Some (Some (- seconds)%Z)
          else None
      | _ => None
      end
  end.

(** [YYYY-MM-DD], [T] or a space, [HH:MM:SS], and an optional offset. *)
Definition read_timestamp (s : string) : option datetime :=
  '(y, s) ← digits 4 0 s;
  s ← expect (Ascii.eqb "-") s;
  '(mo, s) ← digits 2 0 s;
  s ← expect (Ascii.eqb "-") s;
  '(d, s) ← digits 2 0 s;
  s ← expect (Str.has_char "T ") s;
  '(h, s) ← digits 2 0 s;
  s ← expect (Ascii.eqb ":") s;
  '(mi, s) ← digits 2 0 s;
  s ← expect (Ascii.eqb ":") s;
  '(sec, s) ← digits 2 0 s;
  offset ← read_offset s;
  if ((1 <=? mo) && (mo <=? 12) && (1 <=? d) && (d <=? 31) &&
      (h <? 24) && (mi <? 60) && (sec <? 60))%Z
  then
    let local := (days_from_civil y mo d * 86400 + h * 3600 + mi * 60 + sec)%Z in
    Some {| dt_micros := ((local - default 0 offset) * 1000000)%Z;
            dt_aware := bool_decide (is_Some offset) |}
  else None.

Definition parse (timestr : pyval) : outcome datetime :=
  match timestr with
  | PStr s =>
      match read_timestamp s with
      | Some dt => Ok dt
      | None => Raise (LibraryError "ParserError")
      end
  | _ => Raise TypeError
  end.

(** [repr] of values whose strings need no escaping. *)
Fixpoint py_repr (val : pyval) : string :=
  match val with
  | PNone => "None"
  | PBool true => "True"
  | PBool false => "False"
  | PInt n => pretty n
  | PStr s => "'" +:+ s +:+ "'"
  | PList l => "[" +:+ Str.join ", " (map py_repr l) +:+ "]"
  | PDict d =>
      "{" +:+ Str.join ", "
        (map (λ '(k, v), "'" +:+ k +:+ "': " +:+ py_repr v) d) +:+ "}"
  end.

(** The framework's default [post_process] returns the row as it is. *)
Definition super_post_process (row : dict pyval) (context : option (dict pyval))
    : outcome (option (dict pyval)) :=
  Ok (Some row).

Definition library : Library :=
  Build_Library urlparse parse_qs parse py_repr super_post_process.

End Sample.

(** ** Concrete streams, requests and responses *)

Module Examples.

(** A notes stream: no [since] parameter on the server side. *)
Definition notes : Stream := {|
  name := "issue_notes";
  path := Some "/projects/{project_id}/issues/{issue_iid}/notes";
  config := [("private_token", PStr "t0k3n")];
  schema := [("properties", PDict [("id", PDict []); ("project_id", PDict []);
                                   ("updated_at", PDict [])])];
  replication_key := Some "updated_at";
  bookmark_param_name := "since";
|}.

Definition next_page (token : string) : CaseInsensitiveDict :=
  {| store := {[ "x-next-page" := token ]} |}.

(** An empty page answering a request that carried no bookmark. *)
Definition empty_page_no_cutoff : Response := {|
  request := {| url :=
    "https://gitlab.com/api/v4/projects/7/issues/3/notes?page=1&sort=asc" |};
  headers := next_page "2";
  json := Ok (PList []);
|}.

(** An empty page answering a request that carried a bookmark. *)
Definition empty_page_with_cutoff : Response := {|
  request := {| url :=
    "https://gitlab.com/api/v4/projects/7/issues/3/notes?since=2021-01-01T00%3A00%3A00Z" |};
  headers := next_page "2";
  json := Ok (PList []);
|}.

Definition note (id : Z) (updated_at : string) : pyval :=
  PDict [("id", PInt id); ("updated_at", PStr updated_at)].

(** A page whose last record is older than the bookmark of the request. *)
Definition old_page : Response := {|
  request := {| url :=
    "https://gitlab.com/api/v4/projects/7/issues/3/notes?sort=asc&since=2021-01-01T00:00:00+00:00" |};
  headers := next_page "3";
  json := Ok (PList [note 1 "2020-12-30T08:00:00Z"; note 2 "2020-12-31T23:00:00Z"]);
|}.

(** A group-scoped stream with three groups configured. *)
Definition epics : Stream := {|
  name := "epics";
  path := Some "/groups/{group_id}/epics";
  config := [("private_token", PStr "t0k3n"); ("groups", PStr "10 20 30")];
  schema := [("properties", PDict [("id", PDict []); ("group_id", PDict [])])];
  replication_key := Some "updated_at";
  bookmark_param_name := "since";
|}.

(** The same stream with two spaces between two identifiers. *)
Definition epics_wide : Stream := {|
  name := "epics";
  path := Some "/groups/{group_id}/epics";
  config := [("private_token", PStr "t0k3n"); ("groups", PStr "10  20")];
  schema := schema epics;
  replication_key := Some "updated_at";
  bookmark_param_name := "since";
|}.

(** A stream of the group-based class on a project-scoped path. *)
Definition project_labels : Stream := {|
  name := "project_labels";
  path := Some "/projects/{project_path}/labels";
  config := [("groups", PStr "10 20")];
  schema := [];
  replication_key := None;
  bookmark_param_name := "since";
|}.

(** A template with a placeholder inside a pair of braces. *)
Definition nested : Stream := {|
  name := "nested";
  path := Some "/groups/{group{id}}";
  config := [];
  schema := [];
  replication_key := None;
  bookmark_param_name := "since";
|}.

(** A stream with the API root given without a path. *)
Definition bare_host : Stream := {|
  name := "projects";
  path := Some "/projects/{project_id}";
  config := [("api_url", PStr "https://gitlab.com")];
  schema := [];
  replication_key := None;
  bookmark_param_name := "since";
|}.

(** A stream with the API root given with a trailing slash. *)
Definition self_hosted : Stream := {|
  name := "projects";
  path := Some "/projects/{project_id}";
  config := [("api_url", PStr "https://gitlab.com/")];
  schema := [];
  replication_key := None;
  bookmark_param_name := "since";
|}.

End Examples.

(** ** Query parameters *)

(** A value of the query parameters: a plain value, or the starting
    timestamp the framework hands back. *)
Inductive param :=
  | Plain (val : pyval)
  | Timestamp (t : option datetime).

(** What [get_url_params] reads from the framework's stream class. *)
Class Framework := {
  (** [self.is_timestamp_replication_key] *)
  is_timestamp_replication_key : Stream → bool;
  (** [self.get_starting_timestamp(context)] *)
  get_starting_timestamp : Stream → option (dict pyval) → option datetime;
}.

Module GitLabStreamParams.
Section methods.
Context `{Framework}.

(** [get_url_params] of [GitLabStream]; the class attribute
    [extra_url_params] is passed as an argument. *)
Definition get_url_params (self : Stream) (extra_url_params : option (dict pyval))
    (context : option (dict pyval)) (next_page_token : option string)
    : dict param :=
  let params := prod_map id Plain <$> default [] extra_url_params in
  let params :=
    match next_page_token with
    | Some (String _ _ as token) => dict_set "page" (Plain (PStr token)) params
    | _ => params
    end in
  match replication_key self with
  | Some (String _ _ as key) =>
      let params := dict_set "sort" (Plain (PStr "asc")) params in
      let params := dict_set "order_by" (Plain (PStr key)) params in
      if is_timestamp_replication_key self
      then dict_set (bookmark_param_name self)
             (Timestamp (get_starting_timestamp self context)) params
      else params
  | _ => params
  end.

End methods.
End GitLabStreamParams.

(** The characters a URL-encoded value is made of. *)
Definition url_safe (c : ascii) : bool :=
  Urllib.always_safe c || Ascii.eqb c "+" || Ascii.eqb c "%".

(** ** Further concrete requests and responses *)

Module Cases.

(** A response to a request for notes with the given query string. *)
Definition page (query_string token : string) (body : pyval) : Response := {|
  request := {| url :=
    "https://gitlab.com/api/v4/projects/7/issues/3/notes?" +:+ query_string |};
  headers := Examples.next_page token;
  json := Ok body;
|}.

(** A page whose last record is newer than the bookmark. *)
Definition new_page : Response :=
  page "since=2021-01-01T00%3A00%3A00Z" "3"
    (PList [Examples.note 1 "2021-01-02T10:00:00Z";
            Examples.note 2 "2021-01-03T10:00:00Z"]).

(** Other records before the same last one. *)
Definition new_page_other_head : Response :=
  page "since=2021-01-01T00%3A00%3A00Z" "3"
    (PList [Examples.note 9 "1999-01-01T00:00:00Z"; PNone;
            Examples.note 2 "2021-01-03T10:00:00Z"]).

(** A page whose last record has no [updated_at]. *)
Definition keyless_page : Response :=
  page "since=2021-01-01T00%3A00%3A00Z" "3"
    (PList [Examples.note 1 "2021-01-02T10:00:00Z"; PDict [("id", PInt 2)]]).

(** A page whose last record carries no UTC offset, against a bookmark
    that carries one. *)
Definition naive_page : Response :=
  page "since=2021-01-01T00%3A00%3A00Z" "3"
    (PList [Examples.note 1 "2020-12-31T23:00:00"]).

(** The last page as the server marks it: an [X-Next-Page] header with
    an empty value. *)
Definition last_page : Response :=
  page "page=4&sort=asc" "" (PList [Examples.note 7 "2021-02-01T08:00:00Z"]).

(** A request whose bookmark has a space between date and time, written
    [+] in the query string, and a page whose last record is older. *)
Definition spaced_bookmark_page : Response :=
  page "since=2021-01-01+00:00:00" "3"
    (PList [Examples.note 1 "2020-12-31T23:00:00"]).

End Cases.

Module CasesParams.

(** A framework for which every replication key is a timestamp and the
    replication starts on 2021-01-01 00:00 UTC. *)
Definition framework : Framework :=
  Build_Framework (λ _, true)
    (λ _ _, Some {| dt_micros := 1609459200000000; dt_aware := true |}).

(** A stream over a path without a placeholder. *)
Definition all_groups : Stream := {|
  name := "groups";
  path := Some "/groups";
  config := [("private_token", PStr "t0k3n"); ("groups", PStr "10 20")];
  schema := [];
  replication_key := None;
  bookmark_param_name := "since";
|}.

End CasesParams.

(** * Properties *)

(** ** Running the error monad *)

Lemma bind_Ok {A B} (a : A) (k : A → outcome B) : (Ok a ≫= k) = k a.
Proof. reflexivity. Qed.

Lemma bind_Raise {A B} (e : exn) (k : A → outcome B) : (Raise e ≫= k) = Raise e.
Proof. reflexivity. Qed.

(** ** Pagination *)

Section pagination.
Context `{Library}.

(** C4 (amended). Native pagination: the token is the value of the
    [X-Next-Page] response header, whatever the case of the header's name
    on the wire; without the header it is [None]; with the header present
    and empty it is the empty string, not [None]; in both of these cases
    the token is falsy, which is how the last page shows. *)
Theorem native_token_is_next_page_header
    (self : Stream) (response : Response) (previous_token : option string) :
  let header := store (headers response) !! "x-next-page" in
  let token := GitLabStream.get_next_page_token self response previous_token in
  token = header
  ∧ (∀ value, header = Some value → token = Some value)
  ∧ (header = None → token = None)
  ∧ (header = Some "" → token = Some "" ∧ token ≠ None)
  ∧ (header = None ∨ header = Some "" → py_truthy token = false).
Proof.
  cbn zeta. unfold GitLabStream.get_next_page_token, cid_get.
  change (Str.lower "X-Next-Page") with "x-next-page".
  split; [done |]. split; [done |]. split; [done |]. split.
  - intros ->. by split.
  - intros [-> | ->]; reflexivity.
Qed.

Lemma cutoff_absent (self : Stream) (response : Response) (parsed : ParseResult) :
  urlparse (url (request response)) = Ok parsed →
  parse_qs (query parsed) !! bookmark_param_name self = None
  ∨ parse_qs (query parsed) !! bookmark_param_name self = Some [] →
  NoSinceProjectBasedStream.cutoff_of self response = Ok None.
Proof.
  intros Hurl Hq. unfold NoSinceProjectBasedStream.cutoff_of.
  rewrite Hurl, bind_Ok. destruct Hq as [-> | ->]; reflexivity.
Qed.

(** C3. Emulated pagination: when the bookmark parameter is absent from
    the parsed query string of the request sent, or present with nothing
    to index (the index error), nothing is raised, there is no cutoff and
    the result is the native header-based token. *)
Theorem absent_bookmark_falls_through
    (self : Stream) (response : Response) (previous_token : option string)
    (parsed : ParseResult) :
  urlparse (url (request response)) = Ok parsed →
  parse_qs (query parsed) !! bookmark_param_name self = None
  ∨ parse_qs (query parsed) !! bookmark_param_name self = Some [] →
  NoSinceProjectBasedStream.cutoff_of self response = Ok None
  ∧ NoSinceProjectBasedStream.get_next_page_token self response previous_token
    = Ok (GitLabStream.get_next_page_token self response previous_token).
Proof.
  intros Hurl Hq. pose proof (cutoff_absent self response parsed Hurl Hq) as Hc.
  split; [exact Hc |].
  unfold NoSinceProjectBasedStream.get_next_page_token.
  rewrite Hc. reflexivity.
Qed.

(** C1 (amended). Emulated pagination on an empty page: with a cutoff
    read from the request the method returns [None]; without one the
    body is not looked at and the native token is returned. *)
Theorem empty_page_stops_when_cutoff
    (self : Stream) (response : Response) (previous_token : option string)
    (cutoff : option string) :
  json response = Ok (PList []) →
  NoSinceProjectBasedStream.cutoff_of self response = Ok cutoff →
  NoSinceProjectBasedStream.get_next_page_token self response previous_token
  = Ok (match cutoff with
        | Some _ => None
        | None => GitLabStream.get_next_page_token self response previous_token
        end).
Proof.
  intros Hjson Hc. unfold NoSinceProjectBasedStream.get_next_page_token.
  rewrite Hc, bind_Ok. destruct cutoff; [| reflexivity].
  rewrite Hjson. reflexivity.
Qed.

(** X23. Emulated pagination on a non-empty page: when the request
    carried a cutoff, the cutoff and the replication-key value of the
    last record both parse, and the timestamp of the last record is
    strictly earlier than the cutoff, the method returns [None]. *)
Theorem older_last_record_stops
    (self : Stream) (response : Response) (previous_token : option string)
    (cutoff : string) (records : list pyval) (record stamp : pyval)
    (a b : datetime) :
  NoSinceProjectBasedStream.cutoff_of self response = Ok (Some cutoff) →
  json response = Ok (PList records) →
  last records = Some record →
  py_getitem_key record (replication_key self) = Ok stamp →
  parse stamp = Ok a →
  parse (PStr cutoff) = Ok b →
  dt_lt a b = Ok true →
  NoSinceProjectBasedStream.get_next_page_token self response previous_token
  = Ok None.
Proof.
  intros Hc Hjson Hlast Hkey Ha Hb Hlt.
  unfold NoSinceProjectBasedStream.get_next_page_token.
  rewrite Hc, bind_Ok, Hjson, bind_Ok.
  destruct records as [| r rs]; [discriminate |].
  cbn [py_len length]. rewrite bind_Ok. cbn [Nat.eqb].
  cbn [py_getitem_last]. rewrite Hlast, bind_Ok, Hkey, bind_Ok.
  rewrite Ha, bind_Ok, Hb, bind_Ok, Hlt. reflexivity.
Qed.

(** C2 (the code at the claim's own example). The cutoff is the first
    value of the bookmark parameter with every space turned into [+],
    the space between a date and a time included; when the parser
    rejects the text so rebuilt, the method raises the parser's error
    instead of returning [None], however old the last record is. *)
Theorem spaced_cutoff_raises
    (self : Stream) (response : Response) (previous_token : option string)
    (parsed : ParseResult) (value : string) (others : list string)
    (records : list pyval) (record stamp : pyval) (a : datetime) (e : exn) :
  urlparse (url (request response)) = Ok parsed →
  parse_qs (query parsed) !! bookmark_param_name self = Some (value :: others) →
  json response = Ok (PList records) →
  last records = Some record →
  py_getitem_key record (replication_key self) = Ok stamp →
  parse stamp = Ok a →
  parse (PStr (Str.replace value " " "+")) = Raise e →
  NoSinceProjectBasedStream.get_next_page_token self response previous_token
  = Raise e.
Proof.
  intros Hurl Hq Hjson Hlast Hkey Ha He.
  unfold NoSinceProjectBasedStream.get_next_page_token,
    NoSinceProjectBasedStream.cutoff_of.
  rewrite Hurl, bind_Ok, Hq. cbn [list_getitem_0]. rewrite bind_Ok.
  cbn [except_IndexError]. rewrite bind_Ok, Hjson, bind_Ok.
  destruct records as [| r rs]; [discriminate |].
  cbn [py_len length]. rewrite bind_Ok. cbn [Nat.eqb py_getitem_last].
  rewrite Hlast, bind_Ok, Hkey, bind_Ok, Ha, bind_Ok, He. reflexivity.
Qed.

End pagination.

(** ** Strings and dictionaries *)

Lemma str_app_cons (c : ascii) (s t : string) : String c s +:+ t = String c (s +:+ t).
Proof. reflexivity. Qed.

Lemma str_app_nil_l (s : string) : "" +:+ s = s.
Proof. reflexivity. Qed.

Lemma str_app_nil_r (s : string) : s +:+ "" = s.
Proof. induction s as [| c s IH]; [done |]. by rewrite str_app_cons, IH. Qed.

Lemma str_app_assoc (s t u : string) : (s +:+ t) +:+ u = s +:+ (t +:+ u).
Proof. induction s as [| c s IH]; [done |]. by rewrite !str_app_cons, IH. Qed.

Lemma startswith_nil (s : string) : Str.startswith s "" = true.
Proof. by destruct s. Qed.

Lemma dict_get_set {V} (k key : string) (v : V) (d : dict V) :
  dict_get key (dict_set k v d)
  = if String.eqb k key then Some v else dict_get key d.
Proof.
  induction d as [| [k' v'] d IH]; cbn [dict_set dict_get]; [done |].
  destruct (String.eqb_spec k' k) as [-> | Hne]; cbn [dict_get].
  - by destruct (String.eqb k key).
  - rewrite IH. destruct (String.eqb_spec k' key) as [-> | ?]; [| done].
    by destruct (String.eqb_spec k key) as [-> | ?].
Qed.

(** [rstrip] removes a run of the given characters, and all of it. *)
Lemma rstrip_spec (s chars : string) :
  ∃ tail, s = Str.rstrip s chars +:+ tail
    ∧ Str.all_chars (Str.has_char chars) tail = true
    ∧ ∀ c, last_char (Str.rstrip s chars) = Some c → Str.has_char chars c = false.
Proof.
  induction s as [| c s (tail & Hs & Htail & Hlast)]; cbn [Str.rstrip].
  - exists "". by repeat split.
  - destruct (Str.rstrip s chars) as [| a r] eqn:Hr.
    + destruct (Str.has_char chars c) eqn:Hc.
      * exists (String c s). repeat split; [| done].
        cbn [Str.all_chars]. rewrite Hc. rewrite Hs at 1. by rewrite str_app_nil_l.
      * exists tail. repeat split; [| done |].
        -- rewrite str_app_cons, str_app_nil_l. by rewrite Hs at 1.
        -- cbn. by intros ? [= <-].
    + exists tail. repeat split; [| done | exact Hlast].
      rewrite str_app_cons. by rewrite Hs at 1.
Qed.

(** ** The REST base URL *)

Section url_base.
Context `{Library}.

(** C9. The REST base URL: trailing slashes of the configured [api_url]
    (or of the default root when none is configured) are stripped, and
    [/api/v4] is appended exactly when the path component of the stripped
    URL is empty; the default root is left as it is when its path is not
    empty. *)
Theorem url_base_strips_and_appends
    (self : Stream) (override : option string) (parsed : ParseResult) :
  let api_url := default DEFAULT_REST_API_URL override in
  let stripped := Str.rstrip api_url "/" in
  dict_get "api_url" (config self) = PStr <$> override →
  urlparse stripped = Ok parsed →
  (∃ slashes, api_url = stripped +:+ slashes
     ∧ Str.all_chars (Ascii.eqb "/") slashes = true)
  ∧ last_char stripped ≠ Some "/"%char
  ∧ GitLabStream.url_base self
    = Ok (if decide (url_path parsed = "") then stripped +:+ "/api/v4" else stripped)
  ∧ (override = None → stripped = DEFAULT_REST_API_URL).
Proof.
  intros api_url stripped Hcfg Hurl.
  destruct (rstrip_spec api_url "/") as (tail & Hs & Htail & Hlast).
  split; [| split; [| split]].
  - exists tail. split; [exact Hs |].
    clear -Htail. induction tail as [| c t IH]; [done |].
    cbn [Str.all_chars Str.has_char] in *. rewrite orb_false_r in Htail.
    apply andb_prop in Htail as [-> ?]. by rewrite IH.
  - intros Hl. specialize (Hlast _ Hl). discriminate.
  - unfold GitLabStream.url_base. rewrite Hcfg.
    replace (match PStr <$> override with
             | Some (PStr s) => Ok s
             | Some _ => Raise AttributeError
             | None => Ok DEFAULT_REST_API_URL
             end) with (Ok api_url) by (by destruct override).
    rewrite bind_Ok. fold stripped. rewrite Hurl, bind_Ok.
    destruct (url_path parsed); by case_decide.
  - intros ->. reflexivity.
Qed.

End url_base.

(** ** Partitions *)

Lemma split_go_cons (s sep : string) : ∃ piece rest, Str.split_go 0 s sep = piece :: rest.
Proof.
  induction s as [| c s (piece & rest & IH)]; cbn [Str.split_go]; [by eauto |].
  destruct (Str.startswith (String c s) sep); [by eauto |].
  rewrite IH. by eauto.
Qed.

(** Splitting at single spaces reads a space-free prefix into the first
    piece. *)
Lemma split_go_space_free (id s : string) :
  Groups.space_free id = true →
  Str.split_go 0 (id +:+ s) " "
  = match Str.split_go 0 s " " with
    | piece :: rest => (id +:+ piece) :: rest
    | [] => [id]
    end.
Proof.
  unfold Groups.space_free. intros Hid.
  induction id as [| c id IH].
  - rewrite str_app_nil_l. destruct (split_go_cons s " ") as (p & r & ->). done.
  - cbn [Str.has_char] in Hid. apply negb_true_iff, orb_false_elim in Hid as [Hc Hid].
    rewrite str_app_cons. cbn [Str.split_go Str.startswith].
    rewrite Ascii.eqb_sym, Hc. rewrite IH by by rewrite Hid.
    destruct (split_go_cons s " ") as (p & r & ->). done.
Qed.

Lemma split_join_spaces (ids : list string) :
  ids ≠ [] →
  Forall (λ id, Groups.space_free id = true) ids →
  Str.split_go 0 (Str.join " " ids) " " = ids.
Proof.
  induction ids as [| id ids IH]; [done |]. intros _ Hids.
  apply Forall_cons in Hids as [Hid Hids].
  destruct ids as [| id' ids].
  - cbn [Str.join]. rewrite <- (str_app_nil_r id) at 1.
    rewrite split_go_space_free by done. cbn [Str.split_go]. by rewrite str_app_nil_r.
  - change (Str.join " " (id :: id' :: ids))
      with (id +:+ " " +:+ Str.join " " (id' :: ids)).
    rewrite split_go_space_free by done.
    change (" " +:+ Str.join " " (id' :: ids))
      with (String " " (Str.join " " (id' :: ids))).
    cbn [Str.split_go Str.startswith Ascii.eqb Bool.eqb String.length Nat.sub].
    rewrite startswith_nil, IH by done. by rewrite str_app_nil_r.
Qed.

(** C6 (amended). Group partitions: for a path with the [{group_id}]
    placeholder and a [groups] setting that joins one or more
    identifiers, none of them containing a space, with single spaces, the
    result is one context per identifier, in order. *)
Theorem partitions_one_per_identifier
    (self : Stream) (path_template : string) (ids : list string) :
  path self = Some path_template →
  Str.contains path_template "{group_id}" = true →
  ids ≠ [] →
  Forall (λ id, Groups.space_free id = true) ids →
  dict_get "groups" (config self) = Some (PStr (Str.join " " ids)) →
  GroupBasedStream.partitions self = Ok (map Groups.context_of ids).
Proof.
  intros Hpath Hgroup Hne Hids Hcfg. unfold GroupBasedStream.partitions.
  rewrite Hpath, Hgroup. unfold dict_in. rewrite Hcfg. cbn [negb].
  unfold Str.split. rewrite bind_Ok, split_join_spaces by done. reflexivity.
Qed.

(** C7 (amended). Computing the partitions is a pure function of the
    stream; it raises a configuration error ([ValueError]) in exactly two
    situations: the path has the group placeholder and no [groups]
    setting is configured, or the path has no group placeholder (whatever
    else it contains). *)
Theorem partitions_configuration_errors (self : Stream) (path_template : string) :
  path self = Some path_template →
  (Str.contains path_template "{group_id}" = true
     ∧ dict_in "groups" (config self) = false
     ∧ GroupBasedStream.partitions self
       = Raise (ValueError (GroupBasedStream.missing_groups_message self)))
  ∨ (Str.contains path_template "{group_id}" = false
     ∧ GroupBasedStream.partitions self
       = Raise (ValueError
           (GroupBasedStream.no_partition_type_message self path_template)))
  ∨ (Str.contains path_template "{group_id}" = true
     ∧ dict_in "groups" (config self) = true
     ∧ ∀ msg, GroupBasedStream.partitions self ≠ Raise (ValueError msg)).
Proof.
  intros Hpath. unfold GroupBasedStream.partitions. rewrite Hpath.
  destruct (Str.contains path_template "{group_id}"); [| by right; left].
  destruct (dict_in "groups" (config self)) eqn:Hin; [| by left].
  right; right. repeat split. intros msg. cbn [negb].
  destruct (dict_get "groups" (config self)) as [[| | | groups | |] |]; try done.
Qed.

(** ** Post-processing *)

Section post_process.
Context `{Library}.

Lemma post_process_step_dict
    (properties result : dict pyval) (item : string * pyval) :
  GitLabStream.post_process_step (PDict properties) result item
  = Ok (if dict_in item.1 properties && negb (dict_in item.1 result)
        then dict_set item.1 item.2 result else result).
Proof.
  unfold GitLabStream.post_process_step. cbn [py_in]. rewrite bind_Ok.
  by destruct (_ && _).
Qed.

Lemma post_process_loop (properties context : dict pyval) :
  ∀ result : dict pyval,
  ∃ final,
    for_each (GitLabStream.post_process_step (PDict properties)) context result
    = Ok final
    ∧ ∀ key, dict_get key final
        = match dict_get key result with
          | Some v => Some v
          | None => if dict_in key properties then dict_get key context else None
          end.
Proof.
  induction context as [| [k v] context IH]; intros result.
  - exists result. split; [done |]. intros key.
    cbn [dict_get]. destruct (dict_get key result); [done |]. by destruct (dict_in _ _).
  - cbn [for_each]. rewrite post_process_step_dict. cbn [fst snd].
    set (result1 := if dict_in k properties && negb (dict_in k result)
                    then dict_set k v result else result).
    rewrite bind_Ok. destruct (IH result1) as (final & Hrun & Hfinal).
    exists final. split; [exact Hrun |]. intros key. rewrite Hfinal.
    subst result1. cbn [dict_get].
    destruct (dict_in k properties) eqn:Hdecl; cbn [andb].
    + destruct (dict_in k result) eqn:Hin; cbn [negb].
      * destruct (dict_get key result) eqn:Hkey; [done |].
        destruct (String.eqb_spec k key) as [-> | ?]; [| done].
        unfold dict_in in Hin. by rewrite Hkey in Hin.
      * rewrite dict_get_set.
        destruct (String.eqb_spec k key) as [-> | ?]; [| done].
        unfold dict_in in Hin. destruct (dict_get key result); [done |].
        by rewrite Hdecl.
    + destruct (dict_get key result) eqn:Hkey; [done |].
      destruct (String.eqb_spec k key) as [-> | ?]; [| done].
      by rewrite Hdecl.
Qed.

(** C8. Post-processing with a context, for a record the framework
    keeps and a schema whose [properties] (if any) is a dictionary: the
    result holds every key of the framework's result with its value
    unchanged, and a further key exactly when it is declared in
    [properties], absent from that result and present in the context,
    with the context's value. *)
Theorem post_process_fills_declared_missing_keys
    (self : Stream) (row context result properties : dict pyval) :
  super_post_process row (Some context) = Ok (Some result) →
  default (PDict []) (dict_get "properties" (schema self)) = PDict properties →
  ∃ final,
    GitLabStream.post_process self row (Some context) = Ok (Some final)
    ∧ ∀ key, dict_get key final
        = match dict_get key result with
          | Some v => Some v
          | None => if dict_in key properties then dict_get key context else None
          end.
Proof.
  intros Hsuper Hprops. unfold GitLabStream.post_process.
  rewrite Hsuper, bind_Ok, Hprops.
  destruct (post_process_loop properties context result) as (final & -> & Hfinal).
  exists final. by split.
Qed.

(** C10. Post-processing without a context: when the framework keeps the
    record, the assertion on the context fails. *)
Theorem post_process_without_context_asserts
    (self : Stream) (row result : dict pyval) :
  super_post_process row None = Ok (Some result) →
  GitLabStream.post_process self row None = Raise AssertionError.
Proof.
  intros Hsuper. unfold GitLabStream.post_process. by rewrite Hsuper.
Qed.

End post_process.

(** ** Search and replacement *)

Lemma has_char_app (s t : string) (c : ascii) :
  Str.has_char (s +:+ t) c = Str.has_char s c || Str.has_char t c.
Proof.
  induction s as [| a s IH]; [done |].
  rewrite str_app_cons. cbn [Str.has_char]. by rewrite IH, orb_assoc.
Qed.

Lemma startswith_app (p r : string) : Str.startswith (p +:+ r) p = true.
Proof.
  induction p as [| a p IH]; [apply startswith_nil |].
  rewrite str_app_cons. cbn [Str.startswith]. by rewrite Ascii.eqb_refl.
Qed.

Lemma replace_go_skip (x r old new : string) :
  Str.replace_go (String.length x) (x +:+ r) old new = Str.replace_go 0 r old new.
Proof. induction x as [| c x IH]; [done |]. rewrite str_app_cons. exact IH. Qed.

(** At an occurrence, [new] is written and the scan goes on after it. *)
Lemma replace_go_match (a : ascii) (o r new : string) :
  Str.replace_go 0 (String a o +:+ r) (String a o) new
  = new +:+ Str.replace_go 0 r (String a o) new.
Proof.
  pose proof (startswith_app (String a o) r) as Hstart.
  rewrite str_app_cons in *. cbn [Str.replace_go]. rewrite Hstart.
  cbn [String.length]. rewrite Nat.sub_1_r. cbn [Nat.pred].
  by rewrite replace_go_skip.
Qed.

(** Text without the first character of [old] is copied. *)
Lemma replace_go_pass (x r : string) (a : ascii) (o new : string) :
  Str.has_char x a = false →
  Str.replace_go 0 (x +:+ r) (String a o) new
  = x +:+ Str.replace_go 0 r (String a o) new.
Proof.
  induction x as [| c x IH]; [done |]. cbn [Str.has_char].
  intros [Hc Hx]%orb_false_elim. rewrite !str_app_cons.
  cbn [Str.replace_go Str.startswith]. rewrite Ascii.eqb_sym, Hc.
  by rewrite IH.
Qed.

(** Without an occurrence nothing changes. *)
Lemma replace_go_absent (s : string) (a : ascii) (o new : string) :
  Str.contains s (String a o) = false →
  Str.replace_go 0 s (String a o) new = s.
Proof.
  induction s as [| c s IH]; [done |]. cbn [Str.contains].
  intros [Hstart Hrest]%orb_false_elim.
  cbn [Str.replace_go]. rewrite Hstart. by rewrite IH.
Qed.

(** ** URL encoding *)

Lemma quote_plus_byte_no_brace (c b : ascii) :
  Template.is_brace b = true →
  Str.has_char (Urllib.quote_plus_byte c) b = false.
Proof.
  unfold Template.is_brace.
  intros [->%Ascii.eqb_eq | ->%Ascii.eqb_eq]%orb_true_iff;
    by destruct c as [[] [] [] [] [] [] [] []].
Qed.

Lemma quote_plus_no_brace (s : string) (b : ascii) :
  Template.is_brace b = true →
  Str.has_char (Urllib.quote_plus s) b = false.
Proof.
  intros Hb. induction s as [| c s IH]; [done |].
  cbn [Urllib.quote_plus]. by rewrite has_char_app, quote_plus_byte_no_brace, IH.
Qed.

(** ** Templates *)

Lemma brace_free_has_char (s : string) (b : ascii) :
  Template.brace_free s = true → Template.is_brace b = true →
  Str.has_char s b = false.
Proof.
  intros Hs Hb. induction s as [| c s IH]; [done |].
  cbn [Template.brace_free Str.has_char] in *.
  apply andb_prop in Hs as [Hc Hs]. rewrite IH by done.
  rewrite orb_false_r. apply Ascii.eqb_neq. intros ->. by rewrite Hb in Hc.
Qed.

Lemma flat_app (xs ys : list Template.segment) :
  Template.flat (xs ++ ys) = Template.flat xs +:+ Template.flat ys.
Proof.
  induction xs as [| x xs IH]; [done |].
  cbn [app Template.flat]. by rewrite IH, str_app_assoc.
Qed.

Lemma flat_literal (s : string) : Template.flat (Template.literal s) = s.
Proof.
  induction s as [| c s IH]; [done |].
  cbn [Template.literal Template.flat Template.text_of]. by rewrite IH.
Qed.

Lemma flat_flush (pending : option string) :
  Template.flat (Template.flush pending)
  = match pending with Some key => String "{" key | None => "" end.
Proof.
  destruct pending as [key |]; [| done].
  cbn [Template.flush Template.flat Template.text_of]. by rewrite flat_literal.
Qed.

(** Scanning loses no text. *)
Lemma flat_scan_go (s : string) :
  ∀ pending,
    Template.flat (Template.scan_go pending s)
    = Template.flat (Template.flush pending) +:+ s.
Proof.
  induction s as [| c s IH]; intros pending; cbn [Template.scan_go].
  - by rewrite str_app_nil_r.
  - destruct (Ascii.eqb_spec c "{") as [-> | Hopen].
    { rewrite flat_app, IH, !flat_flush. by destruct pending. }
    destruct (Ascii.eqb_spec c "}") as [-> | Hclose].
    { destruct pending as [key |]; cbn [Template.flat]; rewrite IH, !flat_flush.
      - cbn [Template.text_of]. by rewrite !str_app_cons, str_app_nil_l, str_app_assoc.
      - done. }
    destruct pending as [key |]; cbn [Template.flat]; rewrite IH, !flat_flush.
    + by rewrite !str_app_cons, str_app_assoc.
    + done.
Qed.

Lemma flat_scan (template : string) :
  Template.flat (Template.scan template) = template.
Proof. unfold Template.scan. by rewrite flat_scan_go. Qed.

(** A placeholder is found only under its own name. *)
Lemma hole_mismatch (k n r : string) :
  Template.brace_free k = true → Template.brace_free n = true → k ≠ n →
  Str.startswith (Template.text_of (Template.Hole n) +:+ r)
    (Template.text_of (Template.Hole k)) = false.
Proof.
  intros Hk Hn Hne. cbn [Template.text_of]. rewrite !str_app_cons, !str_app_nil_l.
  cbn [Str.startswith Ascii.eqb Bool.eqb]. rewrite str_app_assoc.
  revert n Hn Hne. induction k as [| b k IH]; intros [| a n] Hn Hne; try done.
  - rewrite str_app_nil_l, !str_app_cons. cbn [Str.startswith].
    cbn [Template.brace_free] in Hn. apply andb_prop in Hn as [Ha _].
    destruct (Ascii.eqb_spec "}" a) as [<- | ?]; done.
  - rewrite str_app_nil_l, !str_app_cons. cbn [Str.startswith].
    cbn [Template.brace_free] in Hk. apply andb_prop in Hk as [Hb _].
    destruct (Ascii.eqb_spec b "}") as [-> | ?]; done.
  - rewrite !str_app_cons. cbn [Str.startswith].
    cbn [Template.brace_free] in Hk, Hn.
    apply andb_prop in Hk as [_ Hk]. apply andb_prop in Hn as [_ Hn].
    destruct (Ascii.eqb_spec b a) as [-> | ?]; [| done].
    apply IH; [done.. |]. congruence.
Qed.

Lemma resolve_ext (encode : pyval → string) (f g : string → option pyval)
    (segs : list Template.segment) :
  (∀ key, f key = g key) →
  Template.resolve encode f segs = Template.resolve encode g segs.
Proof.
  intros Hfg. induction segs as [| [c | key] segs IH]; [done | |];
    cbn [Template.resolve Template.fill]; by rewrite ?Hfg, IH.
Qed.

Lemma resolve_nothing (encode : pyval → string) (segs : list Template.segment) :
  Template.resolve encode (λ _, None) segs = Template.flat segs.
Proof.
  induction segs as [| [c | key] segs IH]; [done | |];
    cbn [Template.resolve Template.fill Template.flat]; by rewrite IH.
Qed.

(** ** Dictionaries, continued *)

Lemma dict_get_app {V} (key : string) (d d' : dict V) :
  dict_get key (d ++ d')
  = match dict_get key d with Some v => Some v | None => dict_get key d' end.
Proof.
  induction d as [| [k v] d IH]; [done |].
  cbn [app dict_get]. by destruct (String.eqb k key).
Qed.

Lemma dict_get_fresh {V} (key : string) (d : dict V) :
  key ∉ d.*1 → dict_get key d = None.
Proof.
  induction d as [| [k v] d IH]; [done |].
  cbn [fmap list_fmap fst dict_get]. fold (fmap (M:=list) (@fst string V) d).
  intros [Hne Hd]%not_elem_of_cons.
  destruct (String.eqb_spec k key) as [-> | ?]; [done | by apply IH].
Qed.

(** [update] overlays: the updating dictionary wins on a shared key. *)
Lemma dict_get_update (key : string) (other : dict pyval) :
  NoDup other.*1 →
  ∀ d, dict_get key (dict_update d other) = Template.merged d other key.
Proof.
  unfold dict_update, Template.merged.
  induction other as [| [k v] other IH]; intros Hdup d; [done |].
  cbn [fmap list_fmap fst] in Hdup. fold (fmap (M:=list) (@fst string pyval) other) in Hdup.
  apply NoDup_cons in Hdup as [Hk Hdup].
  cbn [fold_left fst snd dict_get]. rewrite IH by done. rewrite dict_get_set.
  destruct (String.eqb_spec k key) as [-> | ?]; [| done].
  by rewrite dict_get_fresh.
Qed.

Lemma dict_set_keys {V} (P : string → Prop) (k : string) (v : V) (d : dict V) :
  P k → Forall (λ kv, P kv.1) d → Forall (λ kv, P kv.1) (dict_set k v d).
Proof.
  intros Hk. induction 1 as [| [k' v'] d Hk' Hd IH]; cbn [dict_set].
  - by repeat constructor.
  - destruct (String.eqb k' k); constructor; done.
Qed.

Lemma dict_update_keys {V} (P : string → Prop) (other : dict V) :
  Forall (λ kv, P kv.1) other →
  ∀ d, Forall (λ kv, P kv.1) d → Forall (λ kv, P kv.1) (dict_update d other).
Proof.
  unfold dict_update. induction 1 as [| [k v] other Hk Hother IH]; intros d Hd.
  - done.
  - cbn [fold_left]. apply IH. by apply dict_set_keys.
Qed.

(** ** The URL resolver *)

Section get_url.
Context `{Library}.

Lemma url_encode_no_brace (val : pyval) (b : ascii) :
  Template.is_brace b = true →
  Str.has_char (GitLabStream._url_encode val) b = false.
Proof. apply quote_plus_no_brace. Qed.

(** One replacement resolves the placeholders of one more key. *)
Lemma replace_resolve (segs : list Template.segment) (done_ : dict pyval)
    (k : string) (v : pyval) :
  forallb Template.plain segs = true →
  Template.brace_free k = true →
  Str.replace
    (Template.resolve GitLabStream._url_encode (λ key, dict_get key done_) segs)
    (Template.text_of (Template.Hole k)) (GitLabStream._url_encode v)
  = Template.resolve GitLabStream._url_encode
      (λ key, dict_get key (done_ ++ [(k, v)])) segs.
Proof.
  intros Hsegs Hk. cbn [Template.text_of]. rewrite str_app_cons, str_app_nil_l.
  cbn [Str.replace].
  induction segs as [| [c | n] segs IH]; [done | |];
    cbn [forallb Template.plain] in Hsegs; apply andb_prop in Hsegs as [Hseg Hsegs];
    cbn [Template.resolve Template.fill].
  - rewrite !str_app_cons, !str_app_nil_l. cbn [Str.replace_go Str.startswith].
    destruct (Ascii.eqb_spec "{" c) as [<- | ?]; [done |]. by rewrite IH.
  - rewrite dict_get_app. destruct (dict_get n done_) as [x |].
    + rewrite replace_go_pass by by apply url_encode_no_brace. by rewrite IH.
    + cbn [dict_get]. destruct (String.eqb_spec k n) as [-> | Hne].
      * cbn [Template.text_of].
        change ("{" +:+ n +:+ "}") with (String "{" (n +:+ "}")).
        by rewrite replace_go_match, IH.
      * pose proof (hole_mismatch k n
          (Template.resolve GitLabStream._url_encode (λ key, dict_get key done_) segs)
          Hk Hseg Hne) as Hmiss.
        cbn [Template.text_of] in *.
        change ("{" +:+ n +:+ "}") with (String "{" (n +:+ "}")) in *.
        change ("{" +:+ k +:+ "}") with (String "{" (k +:+ "}")) in Hmiss.
        rewrite str_app_cons in *. cbn [Str.replace_go]. rewrite Hmiss.
        rewrite replace_go_pass.
        -- by rewrite IH.
        -- rewrite has_char_app. by rewrite (brace_free_has_char n).
Qed.

Lemma get_url_step_replace (url : string) (item : string * pyval) :
  GitLabStream.get_url_step url item
  = Str.replace url (Template.text_of (Template.Hole item.1))
      (GitLabStream._url_encode item.2).
Proof.
  unfold GitLabStream.get_url_step.
  change (Str.join "" ["{"; item.1; "}"]) with (String "{" (item.1 +:+ "}")).
  change (Template.text_of (Template.Hole item.1)) with (String "{" (item.1 +:+ "}")).
  destruct (Str.contains url _) eqn:Hin; [done |].
  cbn [Str.replace]. by rewrite replace_go_absent.
Qed.

(** The loop over the items resolves the placeholders of all keys. *)
Lemma get_url_loop (segs : list Template.segment) (vals : dict pyval) :
  forallb Template.plain segs = true →
  Forall (λ kv, Template.brace_free kv.1 = true) vals →
  ∀ done_,
    fold_left GitLabStream.get_url_step vals
      (Template.resolve GitLabStream._url_encode (λ key, dict_get key done_) segs)
    = Template.resolve GitLabStream._url_encode
        (λ key, dict_get key (done_ ++ vals)) segs.
Proof.
  intros Hsegs. induction 1 as [| [k v] vals Hk Hvals IH]; intros done_.
  - by rewrite List.app_nil_r.
  - cbn [fold_left]. rewrite get_url_step_replace. cbn [fst snd].
    rewrite replace_resolve by done. rewrite IH.
    by rewrite <- (assoc_L (++)).
Qed.

(** C5 (amended). The URL resolver: when braces occur in the URL
    template (the base URL joined with the path) only around placeholder
    names, and no key of the configuration or of the context contains a
    brace, every placeholder whose key is in the merged mapping
    (configuration overlaid by context, the context winning) is replaced
    by the URL-encoded string form of its value, and every other
    placeholder stays as the literal text [{name}]. *)
Theorem get_url_resolves_placeholders
    (self : Stream) (context : option (dict pyval)) (base : string) :
  let template := base +:+ default "" (path self) in
  GitLabStream.url_base self = Ok base →
  Template.well_braced template = true →
  Forall (λ kv, Template.brace_free kv.1 = true) (config self) →
  Forall (λ kv, Template.brace_free kv.1 = true) (default [] context) →
  NoDup (default [] context).*1 →
  GitLabStream.get_url self context
  = Ok (Template.resolve GitLabStream._url_encode
          (Template.merged (config self) (default [] context))
          (Template.scan template)).
Proof.
  intros template Hbase Hwell Hconfig Hcontext Hdup.
  unfold GitLabStream.get_url. rewrite Hbase, bind_Ok. f_equal.
  change (Str.join "" [base; default "" (path self)]) with template.
  pose proof (get_url_loop _ _ Hwell
                (dict_update_keys (λ k, Template.brace_free k = true)
                   _ Hcontext _ Hconfig) []) as Hloop.
  cbn [app dict_get] in Hloop. rewrite resolve_nothing, flat_scan in Hloop.
  rewrite Hloop. apply resolve_ext. intros key. by apply dict_get_update.
Qed.

End get_url.

(** ** Runs on concrete streams, requests and responses *)

(** C4 at a response with [X-Next-Page: 3]: the token is ["3"]. *)
Lemma native_token_is_next_page_header_witness :
  @GitLabStream.get_next_page_token Examples.notes Examples.old_page None
  = Some "3".
Proof.
  destruct (native_token_is_next_page_header
              Examples.notes Examples.old_page None) as (_ & Hvalue & _).
  apply Hvalue. reflexivity.
Defined.

(** C4 (as stated) fails: with an [X-Next-Page] header that is present
    and empty the token is the empty string, not [None]. *)
Lemma empty_header_gives_empty_token :
  store (headers Cases.last_page) !! "x-next-page" = Some ""
  ∧ GitLabStream.get_next_page_token Examples.notes Cases.last_page None
    = Some ""
  ∧ GitLabStream.get_next_page_token Examples.notes Cases.last_page None
    ≠ None.
Proof. repeat split; [reflexivity.. | discriminate]. Qed.

(** C2 at the request with [since=2021-01-01+00:00:00] and a last record
    of [2020-12-31T23:00:00]: [parse_qs] reads [2021-01-01 00:00:00], the
    method rebuilds [2021-01-01+00:00:00], the parser rejects it and the
    error comes out where [None] was expected. *)
Lemma spaced_cutoff_raises_witness :
  Sample.parse_qs "since=2021-01-01+00:00:00" !! "since"
    = Some ["2021-01-01 00:00:00"]
  ∧ Str.replace "2021-01-01 00:00:00" " " "+" = "2021-01-01+00:00:00"
  ∧ Sample.parse (PStr "2020-12-31T23:00:00")
    = Ok {| dt_micros := 1609455600000000; dt_aware := false |}
  ∧ Sample.parse (PStr "2021-01-01+00:00:00") = Raise (LibraryError "ParserError")
  ∧ @NoSinceProjectBasedStream.get_next_page_token Sample.library
      Examples.notes Cases.spaced_bookmark_page None
    = Raise (LibraryError "ParserError").
Proof.
  assert (Sample.parse_qs "since=2021-01-01+00:00:00" !! "since"
    = Some ["2021-01-01 00:00:00"]) as Hq by (vm_compute; reflexivity).
  split; [exact Hq |]. split; [reflexivity |]. split; [reflexivity |].
  split; [reflexivity |].
  exact (@spaced_cutoff_raises Sample.library Examples.notes
           Cases.spaced_bookmark_page None
           {| scheme := "https"; netloc := "gitlab.com";
              url_path := "/api/v4/projects/7/issues/3/notes"; params := "";
              query := "since=2021-01-01+00:00:00"; fragment := "" |}
           "2021-01-01 00:00:00" []
           [Examples.note 1 "2020-12-31T23:00:00"]
           (Examples.note 1 "2020-12-31T23:00:00")
           (PStr "2020-12-31T23:00:00")
           {| dt_micros := 1609455600000000; dt_aware := false |}
           (LibraryError "ParserError")
           eq_refl Hq eq_refl eq_refl eq_refl eq_refl eq_refl).
Defined.

(** C3 at a request without [since]: the native token ["2"]. *)
Lemma absent_bookmark_falls_through_witness :
  (Sample.parse_qs "page=1&sort=asc" !! "since" = None
   ∨ Sample.parse_qs "page=1&sort=asc" !! "since" = Some [])
  ∧ @NoSinceProjectBasedStream.get_next_page_token Sample.library
      Examples.notes Examples.empty_page_no_cutoff None = Ok (Some "2").
Proof.
  assert (Sample.parse_qs "page=1&sort=asc" !! "since" = None) as Hq
    by (vm_compute; reflexivity).
  split; [by left |].
  refine (proj2 (@absent_bookmark_falls_through Sample.library
    Examples.notes Examples.empty_page_no_cutoff None
    {| scheme := "https"; netloc := "gitlab.com";
       url_path := "/api/v4/projects/7/issues/3/notes"; params := "";
       query := "page=1&sort=asc"; fragment := "" |} _ _)).
  - reflexivity.
  - left. exact Hq.
Defined.

(** C1 (as stated) fails: an empty page answering a request without a
    bookmark, with [X-Next-Page: 2], yields the token ["2"], not [None]. *)
Lemma empty_page_without_cutoff_continues :
  json Examples.empty_page_no_cutoff = Ok (PList [])
  ∧ @NoSinceProjectBasedStream.get_next_page_token Sample.library
      Examples.notes Examples.empty_page_no_cutoff None = Ok (Some "2")
  ∧ @NoSinceProjectBasedStream.get_next_page_token Sample.library
      Examples.notes Examples.empty_page_no_cutoff None ≠ Ok None.
Proof.
  split; [reflexivity |].
  assert (@NoSinceProjectBasedStream.get_next_page_token Sample.library
      Examples.notes Examples.empty_page_no_cutoff None = Ok (Some "2")) as ->
    by (vm_compute; reflexivity).
  split; [reflexivity | discriminate].
Qed.

(** C1 (amended) at an empty page answering a request with a bookmark. *)
Lemma empty_page_stops_when_cutoff_witness :
  json Examples.empty_page_with_cutoff = Ok (PList [])
  ∧ @NoSinceProjectBasedStream.cutoff_of Sample.library
      Examples.notes Examples.empty_page_with_cutoff
    = Ok (Some "2021-01-01T00:00:00Z")
  ∧ @NoSinceProjectBasedStream.get_next_page_token Sample.library
      Examples.notes Examples.empty_page_with_cutoff None = Ok None.
Proof.
  assert (@NoSinceProjectBasedStream.cutoff_of Sample.library
      Examples.notes Examples.empty_page_with_cutoff
    = Ok (Some "2021-01-01T00:00:00Z")) as Hc by (vm_compute; reflexivity).
  split; [reflexivity |]. split; [exact Hc |].
  exact (@empty_page_stops_when_cutoff Sample.library Examples.notes
           Examples.empty_page_with_cutoff None _ eq_refl Hc).
Defined.

(** X23 at a page whose last record, of 2020-12-31 23:00 UTC, is older
    than the cutoff 2021-01-01 00:00 UTC of the request; the query string
    carries the offset as [+00:00], which [parse_qs] reads as a space and
    the method turns back into [+]. *)
Lemma older_last_record_stops_witness :
  @NoSinceProjectBasedStream.cutoff_of Sample.library
      Examples.notes Examples.old_page
    = Ok (Some "2021-01-01T00:00:00+00:00")
  ∧ Sample.parse (PStr "2020-12-31T23:00:00Z")
    = Ok {| dt_micros := 1609455600000000; dt_aware := true |}
  ∧ Sample.parse (PStr "2021-01-01T00:00:00+00:00")
    = Ok {| dt_micros := 1609459200000000; dt_aware := true |}
  ∧ @NoSinceProjectBasedStream.get_next_page_token Sample.library
      Examples.notes Examples.old_page None = Ok None.
Proof.
  assert (@NoSinceProjectBasedStream.cutoff_of Sample.library
      Examples.notes Examples.old_page
    = Ok (Some "2021-01-01T00:00:00+00:00")) as Hc by (vm_compute; reflexivity).
  split; [exact Hc |]. split; [reflexivity |]. split; [reflexivity |].
  exact (@older_last_record_stops Sample.library Examples.notes
           Examples.old_page None _
           [Examples.note 1 "2020-12-30T08:00:00Z";
            Examples.note 2 "2020-12-31T23:00:00Z"]
           (Examples.note 2 "2020-12-31T23:00:00Z")
           (PStr "2020-12-31T23:00:00Z")
           {| dt_micros := 1609455600000000; dt_aware := true |}
           {| dt_micros := 1609459200000000; dt_aware := true |}
           Hc eq_refl eq_refl eq_refl eq_refl eq_refl eq_refl).
Defined.

(** C9 at [https://gitlab.com/], at [https://gitlab.com] and without an
    override: all three give [https://gitlab.com/api/v4]. *)
Lemma url_base_strips_and_appends_witness :
  (dict_get "api_url" (config Examples.self_hosted)
     = PStr <$> Some "https://gitlab.com/"
   ∧ @GitLabStream.url_base Sample.library Examples.self_hosted
     = Ok "https://gitlab.com/api/v4")
  ∧ (dict_get "api_url" (config Examples.bare_host)
       = PStr <$> Some "https://gitlab.com"
     ∧ @GitLabStream.url_base Sample.library Examples.bare_host
       = Ok "https://gitlab.com/api/v4")
  ∧ (dict_get "api_url" (config Examples.notes) = PStr <$> None
     ∧ @GitLabStream.url_base Sample.library Examples.notes
       = Ok "https://gitlab.com/api/v4").
Proof.
  pose (no_path := {| scheme := "https"; netloc := "gitlab.com"; url_path := "";
                      params := ""; query := ""; fragment := "" |}).
  pose (v4 := {| scheme := "https"; netloc := "gitlab.com"; url_path := "/api/v4";
                 params := ""; query := ""; fragment := "" |}).
  split; [split; [reflexivity |] | split; [split; [reflexivity |] | split; [reflexivity |]]].
  - exact (proj1 (proj2 (proj2
      (@url_base_strips_and_appends Sample.library Examples.self_hosted
         (Some "https://gitlab.com/") no_path eq_refl eq_refl)))).
  - exact (proj1 (proj2 (proj2
      (@url_base_strips_and_appends Sample.library Examples.bare_host
         (Some "https://gitlab.com") no_path eq_refl eq_refl)))).
  - exact (proj1 (proj2 (proj2
      (@url_base_strips_and_appends Sample.library Examples.notes
         None v4 eq_refl eq_refl)))).
Defined.

(** C5 (as stated) fails: in [/groups/{group{id}}] the placeholder
    [{id}] has a value and [{group_id}] is not a placeholder of the
    template, yet after [{id}] is replaced the text [{group_id}] is there
    and is replaced as well; with the same mapping in the other order it
    is not. *)
Lemma nested_braces_resolve_twice :
  Template.scan "https://gitlab.com/api/v4/groups/{group{id}}"
    = Template.literal "https://gitlab.com/api/v4/groups/{group"
      ++ [Template.Hole "id"; Template.Lit "}"]
  ∧ Template.resolve (@GitLabStream._url_encode Sample.library)
      (Template.merged [] [("id", PStr "_id"); ("group_id", PInt 7)])
      (Template.scan "https://gitlab.com/api/v4/groups/{group{id}}")
    = "https://gitlab.com/api/v4/groups/{group_id}"
  ∧ @GitLabStream.get_url Sample.library Examples.nested
      (Some [("id", PStr "_id"); ("group_id", PInt 7)])
    = Ok "https://gitlab.com/api/v4/groups/7"
  ∧ @GitLabStream.get_url Sample.library Examples.nested
      (Some [("group_id", PInt 7); ("id", PStr "_id")])
    = Ok "https://gitlab.com/api/v4/groups/{group_id}".
Proof. repeat split; vm_compute; reflexivity. Qed.

(** C5 (amended) at the notes path with a project path as context. *)
Lemma get_url_resolves_placeholders_witness :
  @GitLabStream.url_base Sample.library Examples.notes
    = Ok "https://gitlab.com/api/v4"
  ∧ Template.well_braced
      "https://gitlab.com/api/v4/projects/{project_id}/issues/{issue_iid}/notes"
    = true
  ∧ @GitLabStream.get_url Sample.library Examples.notes
      (Some [("project_id", PStr "meltano/tap gitlab")])
    = Ok "https://gitlab.com/api/v4/projects/meltano%2Ftap+gitlab/issues/{issue_iid}/notes".
Proof.
  split; [reflexivity |]. split; [reflexivity |].
  refine (eq_trans
    (@get_url_resolves_placeholders Sample.library Examples.notes
       (Some [("project_id", PStr "meltano/tap gitlab")])
       "https://gitlab.com/api/v4" eq_refl eq_refl _ _ _) _).
  - repeat constructor.
  - repeat constructor.
  - apply NoDup_singleton.
  - reflexivity.
Defined.

(** C6 (as stated) fails: two identifiers separated by two spaces give
    three contexts, one of them for the empty identifier. *)
Lemma partitions_of_wide_separator :
  Groups.identifiers "10  20" = ["10"; "20"]
  ∧ GroupBasedStream.partitions Examples.epics_wide
    = Ok [Groups.context_of "10"; Groups.context_of ""; Groups.context_of "20"]
  ∧ GroupBasedStream.partitions Examples.epics_wide
    ≠ Ok (map Groups.context_of (Groups.identifiers "10  20")).
Proof. repeat split; [vm_compute; reflexivity.. | discriminate]. Qed.

(** C6 (amended) at [groups = "10 20 30"]. *)
Lemma partitions_one_per_identifier_witness :
  Str.contains "/groups/{group_id}/epics" "{group_id}" = true
  ∧ dict_get "groups" (config Examples.epics)
    = Some (PStr (Str.join " " ["10"; "20"; "30"]))
  ∧ GroupBasedStream.partitions Examples.epics
    = Ok [[("group_id", PStr "10")]; [("group_id", PStr "20")];
          [("group_id", PStr "30")]].
Proof.
  split; [reflexivity |]. split; [reflexivity |].
  refine (partitions_one_per_identifier Examples.epics
            "/groups/{group_id}/epics" ["10"; "20"; "30"]
            eq_refl eq_refl _ _ eq_refl).
  - discriminate.
  - repeat constructor.
Defined.

(** C7 (as stated) fails: a path with the project placeholder, and so
    outside both situations, raises the configuration error all the
    same. *)
Lemma project_path_raises_configuration_error :
  Str.contains "/projects/{project_path}/labels" "{project_path}" = true
  ∧ dict_in "groups" (config Examples.project_labels) = true
  ∧ GroupBasedStream.partitions Examples.project_labels
    = Raise (ValueError
        (GroupBasedStream.no_partition_type_message Examples.project_labels
           "/projects/{project_path}/labels")).
Proof. repeat split; reflexivity. Qed.

(** C7 (amended) at the stream with groups configured: no error. *)
Lemma partitions_configuration_errors_witness :
  path Examples.epics = Some "/groups/{group_id}/epics"
  ∧ ∀ msg, GroupBasedStream.partitions Examples.epics ≠ Raise (ValueError msg).
Proof.
  split; [reflexivity |].
  destruct (partitions_configuration_errors Examples.epics
              "/groups/{group_id}/epics" eq_refl)
    as [(_ & Hin & _) | [(Hgroup & _) | (_ & _ & Hok)]];
    [discriminate Hin | discriminate Hgroup | exact Hok].
Defined.

(** C8 at the record [{"id": 5}] of project 7, issue 3: [project_id] is
    declared by the schema and filled in, [issue_iid] is not declared and
    stays out, [id] is kept. *)
Lemma post_process_fills_declared_missing_keys_witness :
  ∃ final,
    @GitLabStream.post_process Sample.library Examples.notes
      [("id", PInt 5)] (Some [("project_id", PInt 7); ("issue_iid", PInt 3); ("id", PInt 0)])
    = Ok (Some final)
    ∧ dict_get "id" final = Some (PInt 5)
    ∧ dict_get "project_id" final = Some (PInt 7)
    ∧ dict_get "issue_iid" final = None.
Proof.
  destruct (@post_process_fills_declared_missing_keys Sample.library
              Examples.notes [("id", PInt 5)]
              [("project_id", PInt 7); ("issue_iid", PInt 3); ("id", PInt 0)]
              [("id", PInt 5)]
              [("id", PDict []); ("project_id", PDict []); ("updated_at", PDict [])]
              eq_refl eq_refl) as (final & Hrun & Hfinal).
  exists final. split; [exact Hrun |].
  rewrite !Hfinal. repeat split; reflexivity.
Defined.

(** C10 at the record [{"id": 5}] without a context. *)
Lemma post_process_without_context_asserts_witness :
  Sample.super_post_process [("id", PInt 5)] None = Ok (Some [("id", PInt 5)])
  ∧ @GitLabStream.post_process Sample.library Examples.notes [("id", PInt 5)] None
    = Raise AssertionError.
Proof.
  split; [reflexivity |].
  exact (@post_process_without_context_asserts Sample.library Examples.notes
           [("id", PInt 5)] [("id", PInt 5)] eq_refl).
Defined.

(** * Further properties *)

(** ** Replacement of a single character *)

Lemma replace_char_cons (c a : ascii) (s new : string) :
  Str.replace_go 0 (String c s) (String a "") new
  = (if Ascii.eqb a c then new else String c "")
    +:+ Str.replace_go 0 s (String a "") new.
Proof.
  cbn [Str.replace_go Str.startswith String.length Nat.sub].
  destruct (Ascii.eqb a c); [by rewrite startswith_nil | done].
Qed.

Lemma replace_char_gone (s : string) (a : ascii) (new : string) :
  Str.has_char new a = false →
  Str.has_char (Str.replace_go 0 s (String a "") new) a = false.
Proof.
  intros Hnew. induction s as [| c s IH]; [done |].
  rewrite replace_char_cons, has_char_app, IH, orb_false_r.
  destruct (Ascii.eqb_spec a c) as [-> | Hne]; [done |].
  cbn [Str.has_char]. rewrite orb_false_r. apply Ascii.eqb_neq. congruence.
Qed.

(** Turning [b] into [a] and back gives a text without [a] again. *)
Lemma replace_char_back (s : string) (a b : ascii) :
  Str.has_char s a = false →
  Str.replace_go 0 (Str.replace_go 0 s (String b "") (String a ""))
    (String a "") (String b "") = s.
Proof.
  induction s as [| c s IH]; [done |]. cbn [Str.has_char].
  intros [Hc Hs]%orb_false_elim. rewrite replace_char_cons.
  destruct (Ascii.eqb_spec b c) as [-> | Hne].
  - rewrite str_app_cons, str_app_nil_l, replace_char_cons, Ascii.eqb_refl.
    by rewrite IH.
  - rewrite str_app_cons, str_app_nil_l, replace_char_cons.
    rewrite Ascii.eqb_sym, Hc. by rewrite IH.
Qed.

(** ** Emulated pagination, continued *)

Section emulated.
Context `{Library}.

(** X1. The cutoff read back from the request never contains a space:
    every space of the parsed value has become a [+]. *)
Theorem cutoff_has_no_space (self : Stream) (response : Response) (cutoff : string) :
  NoSinceProjectBasedStream.cutoff_of self response = Ok (Some cutoff) →
  Str.has_char cutoff " " = false.
Proof.
  unfold NoSinceProjectBasedStream.cutoff_of.
  destruct (urlparse _) as [parsed | e]; [rewrite bind_Ok | done].
  destruct (parse_qs _ !! _) as [[| first others] |]; [done | | done].
  cbn [list_getitem_0]. rewrite bind_Ok. cbn [except_IndexError].
  intros [= <-]. by apply replace_char_gone.
Qed.

(** X2. A bookmark without a space that went into the query string with
    its [+] unescaped, and so is read by [parse_qs] with a space for
    every [+], is read back unchanged; when the parameter is repeated its
    first value counts. *)
Theorem cutoff_restores_plus
    (self : Stream) (response : Response) (parsed : ParseResult)
    (original : string) (others : list string) :
  urlparse (url (request response)) = Ok parsed →
  parse_qs (query parsed) !! bookmark_param_name self
    = Some (Str.replace original "+" " " :: others) →
  Str.has_char original " " = false →
  NoSinceProjectBasedStream.cutoff_of self response = Ok (Some original).
Proof.
  intros Hurl Hq Hspace. unfold NoSinceProjectBasedStream.cutoff_of.
  rewrite Hurl, bind_Ok, Hq. cbn [list_getitem_0]. rewrite bind_Ok.
  cbn [except_IndexError Str.replace]. by rewrite replace_char_back.
Qed.

(** X3. The emulated pagination never makes up a token: what it returns
    is [None] or the native header token. *)
Theorem emulated_token_is_none_or_native
    (self : Stream) (response : Response) (previous_token token : option string) :
  NoSinceProjectBasedStream.get_next_page_token self response previous_token
    = Ok token →
  token = None
  ∨ token = GitLabStream.get_next_page_token self response previous_token.
Proof.
  unfold NoSinceProjectBasedStream.get_next_page_token.
  destruct (NoSinceProjectBasedStream.cutoff_of self response)
    as [[cutoff |] | e]; [| by intros [= <-]; right | done].
  rewrite bind_Ok.
  destruct (json response) as [results | e]; [rewrite bind_Ok | done].
  destruct (py_len results) as [n | e]; [rewrite bind_Ok | done].
  destruct (Nat.eqb n 0); [by intros [= <-]; left |].
  destruct (py_getitem_last results) as [record | e]; [rewrite bind_Ok | done].
  destruct (py_getitem_key record _) as [stamp | e]; [rewrite bind_Ok | done].
  destruct (parse stamp) as [a | e]; [rewrite bind_Ok | done].
  destruct (parse (PStr cutoff)) as [b | e]; [rewrite bind_Ok | done].
  destruct (dt_lt a b) as [[] | e]; [rewrite bind_Ok.. | done];
    intros [= <-]; auto.
Qed.

(** What the method does with a cutoff and a non-empty list of records. *)
Lemma emulated_on_records
    (self : Stream) (response : Response) (previous_token : option string)
    (cutoff : string) (records : list pyval) (record : pyval) :
  NoSinceProjectBasedStream.cutoff_of self response = Ok (Some cutoff) →
  json response = Ok (PList records) →
  last records = Some record →
  NoSinceProjectBasedStream.get_next_page_token self response previous_token
  = (stamp ← py_getitem_key record (replication_key self);
     a ← parse stamp;
     b ← parse (PStr cutoff);
     earlier ← dt_lt a b;
     if (earlier : bool) then Ok None
     else Ok (GitLabStream.get_next_page_token self response previous_token)).
Proof.
  intros Hc Hjson Hlast. unfold NoSinceProjectBasedStream.get_next_page_token.
  rewrite Hc, bind_Ok, Hjson, bind_Ok.
  destruct records as [| r rs]; [discriminate |].
  cbn [py_len length]. rewrite bind_Ok. cbn [Nat.eqb py_getitem_last].
  by rewrite Hlast, bind_Ok.
Qed.

(** X4. On a non-empty page whose last record is not earlier than the
    cutoff (equal or later), the decision is left to the native header
    token. *)
Theorem newer_last_record_defers
    (self : Stream) (response : Response) (previous_token : option string)
    (cutoff : string) (records : list pyval) (record stamp : pyval)
    (a b : datetime) :
  NoSinceProjectBasedStream.cutoff_of self response = Ok (Some cutoff) →
  json response = Ok (PList records) →
  last records = Some record →
  py_getitem_key record (replication_key self) = Ok stamp →
  parse stamp = Ok a →
  parse (PStr cutoff) = Ok b →
  dt_lt a b = Ok false →
  NoSinceProjectBasedStream.get_next_page_token self response previous_token
  = Ok (GitLabStream.get_next_page_token self response previous_token).
Proof.
  intros Hc Hjson Hlast Hkey Ha Hb Hlt.
  rewrite (emulated_on_records _ _ _ _ _ _ Hc Hjson Hlast).
  by rewrite Hkey, bind_Ok, Ha, bind_Ok, Hb, bind_Ok, Hlt.
Qed.

(** X5. Only the last record of a page is looked at: two responses to
    the same request with the same headers, whose non-empty record lists
    end with the same record, get the same answer. *)
Theorem only_last_record_matters
    (self : Stream) (response response' : Response)
    (previous_token : option string) (records records' : list pyval)
    (record : pyval) :
  request response = request response' →
  headers response = headers response' →
  json response = Ok (PList records) →
  json response' = Ok (PList records') →
  last records = Some record →
  last records' = Some record →
  NoSinceProjectBasedStream.get_next_page_token self response previous_token
  = NoSinceProjectBasedStream.get_next_page_token self response' previous_token.
Proof.
  intros Hreq Hhead Hjson Hjson' Hlast Hlast'.
  assert (NoSinceProjectBasedStream.cutoff_of self response
          = NoSinceProjectBasedStream.cutoff_of self response') as Hcut
    by (unfold NoSinceProjectBasedStream.cutoff_of; by rewrite Hreq).
  assert (GitLabStream.get_next_page_token self response previous_token
          = GitLabStream.get_next_page_token self response' previous_token) as Hnative
    by (unfold GitLabStream.get_next_page_token; by rewrite Hhead).
  destruct (NoSinceProjectBasedStream.cutoff_of self response')
    as [[cutoff |] | e] eqn:Hc'.
  - rewrite (emulated_on_records _ _ _ _ _ _ Hcut Hjson Hlast).
    rewrite (emulated_on_records _ _ _ _ _ _ Hc' Hjson' Hlast').
    by rewrite Hnative.
  - unfold NoSinceProjectBasedStream.get_next_page_token.
    by rewrite Hcut, Hc', !bind_Ok, Hnative.
  - unfold NoSinceProjectBasedStream.get_next_page_token. by rewrite Hcut, Hc'.
Qed.

(** X6. With a cutoff, a last record that is a dictionary without the
    replication key (or a stream without a replication key) raises
    [KeyError]: only the index error of the cutoff lookup is caught. *)
Theorem missing_replication_key_raises
    (self : Stream) (response : Response) (previous_token : option string)
    (cutoff : string) (records : list pyval) (record : dict pyval) :
  NoSinceProjectBasedStream.cutoff_of self response = Ok (Some cutoff) →
  json response = Ok (PList records) →
  last records = Some (PDict record) →
  (replication_key self ≫= λ key, dict_get key record) = None →
  NoSinceProjectBasedStream.get_next_page_token self response previous_token
  = Raise KeyError.
Proof.
  intros Hc Hjson Hlast Hkey.
  rewrite (emulated_on_records _ _ _ _ _ _ Hc Hjson Hlast).
  cbn [py_getitem_key]. destruct (replication_key self) as [key |]; [| done].
  cbn in Hkey. by rewrite Hkey.
Qed.

(** X7. A last record and a cutoff of which one carries a UTC offset and
    the other does not cannot be compared: the method raises
    [TypeError]. *)
Theorem naive_against_aware_raises
    (self : Stream) (response : Response) (previous_token : option string)
    (cutoff : string) (records : list pyval) (record stamp : pyval)
    (a b : datetime) :
  NoSinceProjectBasedStream.cutoff_of self response = Ok (Some cutoff) →
  json response = Ok (PList records) →
  last records = Some record →
  py_getitem_key record (replication_key self) = Ok stamp →
  parse stamp = Ok a →
  parse (PStr cutoff) = Ok b →
  dt_aware a ≠ dt_aware b →
  NoSinceProjectBasedStream.get_next_page_token self response previous_token
  = Raise TypeError.
Proof.
  intros Hc Hjson Hlast Hkey Ha Hb Haware.
  rewrite (emulated_on_records _ _ _ _ _ _ Hc Hjson Hlast).
  rewrite Hkey, bind_Ok, Ha, bind_Ok, Hb, bind_Ok. unfold dt_lt.
  by destruct (dt_aware a), (dt_aware b).
Qed.

End emulated.

(** ** Partitions, continued *)

Lemma join_cons_cons (sep p q : string) (rest : list string) :
  Str.join sep (p :: q :: rest) = p +:+ sep +:+ Str.join sep (q :: rest).
Proof. reflexivity. Qed.

Lemma join_push (sep : string) (c : ascii) (p : string) (rest : list string) :
  Str.join sep (String c p :: rest) = String c (Str.join sep (p :: rest)).
Proof. destruct rest; [done |]. by rewrite !join_cons_cons, str_app_cons. Qed.

(** Splitting at single spaces loses nothing, and no piece has a space. *)
Lemma join_split_spaces (s : string) :
  Str.join " " (Str.split_go 0 s " ") = s
  ∧ Forall (λ id, Groups.space_free id = true) (Str.split_go 0 s " ").
Proof.
  induction s as [| c s [IHjoin IHfree]].
  - split; [done | by repeat constructor].
  - destruct (split_go_cons s " ") as (p & rest & Hsplit).
    cbn [Str.split_go Str.startswith String.length Nat.sub].
    rewrite startswith_nil, Hsplit in *.
    destruct (Ascii.eqb_spec " " c) as [<- | Hne].
    + rewrite join_cons_cons, IHjoin. split; [done |]. by constructor.
    + rewrite join_push, IHjoin. split; [done |].
      apply Forall_cons in IHfree as [Hp Hrest]. constructor; [| done].
      unfold Groups.space_free in *. cbn [Str.has_char].
      apply negb_true_iff in Hp. rewrite Hp, orb_false_r.
      apply negb_true_iff, Ascii.eqb_neq. congruence.
Qed.

(** X8. When the partitions are computed without an error, and only
    then, the path has the group placeholder and the [groups] setting is
    a string; the contexts are that string cut at every single space: one
    or more identifiers without a space which, joined by single spaces,
    give the setting back. *)
Theorem partitions_succeed_iff (self : Stream) (contexts : list (dict pyval)) :
  GroupBasedStream.partitions self = Ok contexts
  ↔ ∃ path_template ids,
      path self = Some path_template
      ∧ Str.contains path_template "{group_id}" = true
      ∧ dict_get "groups" (config self) = Some (PStr (Str.join " " ids))
      ∧ ids ≠ []
      ∧ Forall (λ id, Groups.space_free id = true) ids
      ∧ contexts = map Groups.context_of ids.
Proof.
  unfold GroupBasedStream.partitions. split.
  - destruct (path self) as [path_template |]; [| done].
    destruct (Str.contains path_template "{group_id}") eqn:Hgroup; [| done].
    unfold dict_in.
    destruct (dict_get "groups" (config self)) as [[| | | groups | |] |];
      try done.
    cbn [negb Str.split]. rewrite bind_Ok. intros [= <-].
    destruct (join_split_spaces groups) as [Hjoin Hfree].
    exists path_template, (Str.split_go 0 groups " ").
    rewrite Hjoin. repeat split; try done.
    destruct (split_go_cons groups " ") as (p & rest & ->). done.
  - intros (path_template & ids & -> & -> & Hcfg & Hne & Hfree & ->).
    unfold dict_in. rewrite Hcfg. cbn [negb Str.split].
    by rewrite bind_Ok, split_join_spaces.
Qed.

(** ** Post-processing, continued *)

Lemma dict_set_fresh {V} (k : string) (v : V) (d : dict V) :
  dict_in k d = false → dict_set k v d = d ++ [(k, v)].
Proof.
  unfold dict_in. induction d as [| [k' v'] d IH]; [done |].
  cbn [dict_get dict_set app]. destruct (String.eqb k' k); [done |].
  intros Hd. by rewrite IH.
Qed.

Lemma dict_in_app {V} (k : string) (d d' : dict V) :
  dict_in k (d ++ d') = dict_in k d || dict_in k d'.
Proof. unfold dict_in. rewrite dict_get_app. by destruct (dict_get k d). Qed.

Lemma dict_get_elem {V} (k : string) (v : V) (d : dict V) :
  (k, v) ∈ d → dict_in k d = true.
Proof.
  unfold dict_in. induction d as [| [k' v'] d IH]; [by intros ?%elem_of_nil |].
  intros [[= <- <-] | Hd]%elem_of_cons; cbn [dict_get].
  - by rewrite String.eqb_refl.
  - destruct (String.eqb k' k); [done | by apply IH].
Qed.

Section post_process_more.
Context `{Library}.

(** The keys the loop of [post_process] adds to [result]. *)
Lemma post_process_loop_appends (properties context : dict pyval) :
  NoDup context.*1 →
  ∀ result : dict pyval,
    for_each (GitLabStream.post_process_step (PDict properties)) context result
    = Ok (result ++ List.filter
            (λ item, dict_in item.1 properties && negb (dict_in item.1 result))
            context).
Proof.
  induction context as [| [k v] context IH]; intros Hdup result.
  - by rewrite List.app_nil_r.
  - cbn [fmap list_fmap fst] in Hdup.
    fold (fmap (M:=list) (@fst string pyval) context) in Hdup.
    apply NoDup_cons in Hdup as [Hk Hdup].
    cbn [for_each List.filter]. rewrite post_process_step_dict. cbn [fst snd].
    destruct (dict_in k properties && negb (dict_in k result)) eqn:Hadd;
      rewrite bind_Ok, IH by done; [| done].
    apply andb_prop in Hadd as [_ Hfresh%negb_true_iff].
    rewrite dict_set_fresh by done. rewrite <- (assoc_L (++)). cbn [app].
    do 3 f_equal. apply List.filter_ext_in. intros [k' v'] Hin. cbn [fst].
    rewrite dict_in_app. unfold dict_in at 3. cbn [dict_get].
    destruct (String.eqb_spec k k') as [<- | ?]; [| by rewrite orb_false_r].
    destruct Hk. apply list_elem_of_In in Hin.
    by apply (list_elem_of_fmap_2 fst) in Hin.
Qed.

(** The loop changes nothing once every declared key of the context is
    in the record. *)
Lemma post_process_loop_settled (properties context result : dict pyval) :
  (∀ k v, (k, v) ∈ context → dict_in k properties = true → dict_in k result = true) →
  for_each (GitLabStream.post_process_step (PDict properties)) context result
  = Ok result.
Proof.
  induction context as [| [k v] context IH]; intros Hin; [done |].
  cbn [for_each]. rewrite post_process_step_dict. cbn [fst snd].
  destruct (dict_in k properties) eqn:Hdecl; cbn [andb].
  - rewrite (Hin k v) by (done || by left). cbn [negb]. rewrite bind_Ok.
    apply IH. intros k' v' ?. apply (Hin k' v'). by right.
  - rewrite bind_Ok. apply IH. intros k' v' ?. apply (Hin k' v'). by right.
Qed.

(** X9. Post-processing appends: the result is the framework's record
    followed, in the order of the context, by the items of the context
    whose key is declared in [properties] and absent from that record.
    Nothing is removed or reordered. *)
Theorem post_process_appends_in_context_order
    (self : Stream) (row context result properties : dict pyval) :
  super_post_process row (Some context) = Ok (Some result) →
  default (PDict []) (dict_get "properties" (schema self)) = PDict properties →
  NoDup context.*1 →
  GitLabStream.post_process self row (Some context)
  = Ok (Some (result ++ List.filter
                (λ item, dict_in item.1 properties && negb (dict_in item.1 result))
                context)).
Proof.
  intros Hsuper Hprops Hdup. unfold GitLabStream.post_process.
  rewrite Hsuper, bind_Ok, Hprops. by rewrite post_process_loop_appends.
Qed.

(** X10. Post-processing is idempotent: a record that came out of it,
    handed in again with the same context and kept as it is by the
    framework, comes out unchanged. *)
Theorem post_process_idempotent
    (self : Stream) (row context final properties : dict pyval) :
  default (PDict []) (dict_get "properties" (schema self)) = PDict properties →
  GitLabStream.post_process self row (Some context) = Ok (Some final) →
  super_post_process final (Some context) = Ok (Some final) →
  GitLabStream.post_process self final (Some context) = Ok (Some final).
Proof.
  intros Hprops Hfirst Hsuper. unfold GitLabStream.post_process in *.
  rewrite Hsuper, bind_Ok, Hprops in *.
  destruct (super_post_process row (Some context)) as [[result |] | e];
    [| done..].
  rewrite bind_Ok in Hfirst.
  destruct (post_process_loop properties context result) as (final' & Hrun & Hget).
  rewrite Hrun, bind_Ok in Hfirst. injection Hfirst as ->.
  rewrite post_process_loop_settled; [done |].
  intros k v Hin Hdecl. unfold dict_in. rewrite Hget.
  destruct (dict_get k result); [done |]. rewrite Hdecl.
  apply dict_get_elem in Hin. unfold dict_in in Hin.
  by destruct (dict_get k context).
Qed.

(** X11. Post-processing discards a record exactly when the framework
    does: the enrichment never drops a record, and a discarded record
    does not reach the assertion on the context. *)
Theorem post_process_discards_iff
    (self : Stream) (row : dict pyval) (context : option (dict pyval))
    (properties : dict pyval) :
  default (PDict []) (dict_get "properties" (schema self)) = PDict properties →
  GitLabStream.post_process self row context = Ok None
  ↔ super_post_process row context = Ok None.
Proof.
  intros Hprops. unfold GitLabStream.post_process.
  destruct (super_post_process row context) as [[result |] | e];
    [| done..].
  rewrite bind_Ok. destruct context as [context |]; [| done].
  rewrite Hprops.
  destruct (post_process_loop properties context result) as (final & -> & _).
  done.
Qed.

End post_process_more.

(** ** The REST base URL, continued *)

Lemma last_char_app (s t : string) :
  t ≠ "" → last_char (s +:+ t) = last_char t.
Proof.
  intros Ht. induction s as [| c s IH]; [done |].
  rewrite str_app_cons. cbn [last_char]. rewrite IH.
  destruct (s +:+ t) eqn:Hst; [| done].
  destruct s; [| done]. by rewrite str_app_nil_l in Hst.
Qed.

Lemma rstrip_app_stripped (s chars : string) (c : ascii) :
  Str.has_char chars c = true →
  Str.rstrip (s +:+ String c "") chars = Str.rstrip s chars.
Proof.
  intros Hc. induction s as [| a s IH].
  - rewrite str_app_nil_l. cbn [Str.rstrip]. by rewrite Hc.
  - rewrite str_app_cons. cbn [Str.rstrip]. by rewrite IH.
Qed.

Section url_base_more.
Context `{Library}.

(** X12. The REST base URL never ends with a slash, so that joining it
    with a path that starts with one gives a single slash. *)
Theorem url_base_never_ends_with_slash (self : Stream) (base : string) :
  GitLabStream.url_base self = Ok base →
  last_char base ≠ Some "/"%char.
Proof.
  unfold GitLabStream.url_base.
  destruct (match dict_get "api_url" (config self) with
            | Some (PStr s) => Ok s
            | Some _ => Raise AttributeError
            | None => Ok DEFAULT_REST_API_URL
            end) as [api_url | e]; [rewrite bind_Ok | done].
  destruct (urlparse _) as [parsed | e]; [rewrite bind_Ok | done].
  destruct (rstrip_spec api_url "/") as (_ & _ & _ & Hlast).
  destruct (url_path parsed); intros [= <-].
  - by rewrite last_char_app.
  - intros Hl. by specialize (Hlast _ Hl).
Qed.

(** X13. One more slash at the end of the configured [api_url] makes no
    difference to the REST base URL. *)
Theorem url_base_ignores_trailing_slash (self self' : Stream) (api_url : string) :
  dict_get "api_url" (config self) = Some (PStr api_url) →
  dict_get "api_url" (config self') = Some (PStr (api_url +:+ "/")) →
  GitLabStream.url_base self' = GitLabStream.url_base self.
Proof.
  intros Hcfg Hcfg'. unfold GitLabStream.url_base.
  rewrite Hcfg, Hcfg', !bind_Ok. by rewrite rstrip_app_stripped.
Qed.

End url_base_more.

(** ** URL encoding, continued *)

Lemma all_chars_app (p : ascii → bool) (s t : string) :
  Str.all_chars p (s +:+ t) = Str.all_chars p s && Str.all_chars p t.
Proof.
  induction s as [| c s IH]; [done |].
  rewrite str_app_cons. cbn [Str.all_chars]. by rewrite IH, andb_assoc.
Qed.

Lemma all_chars_has_char (p : ascii → bool) (s : string) (c : ascii) :
  Str.all_chars p s = true → p c = false → Str.has_char s c = false.
Proof.
  intros Hs Hc. induction s as [| a s IH]; [done |].
  cbn [Str.all_chars Str.has_char] in *. apply andb_prop in Hs as [Ha Hs].
  rewrite IH by done. rewrite orb_false_r. apply Ascii.eqb_neq. congruence.
Qed.

Lemma quote_plus_byte_url_safe (c : ascii) :
  Str.all_chars url_safe (Urllib.quote_plus_byte c) = true.
Proof. by destruct c as [[] [] [] [] [] [] [] []]. Qed.

Lemma quote_plus_url_safe (s : string) :
  Str.all_chars url_safe (Urllib.quote_plus s) = true.
Proof.
  induction s as [| c s IH]; [done |].
  cbn [Urllib.quote_plus]. by rewrite all_chars_app, quote_plus_byte_url_safe, IH.
Qed.

Lemma quote_plus_safe_text (s : string) :
  Str.all_chars Urllib.always_safe s = true → Urllib.quote_plus s = s.
Proof.
  induction s as [| c s IH]; [done |]. cbn [Str.all_chars Urllib.quote_plus].
  intros [Hc Hs]%andb_prop. rewrite IH by done.
  unfold Urllib.quote_plus_byte. rewrite Hc.
  destruct (Ascii.eqb_spec c " ") as [-> | ?]; [done |]. done.
Qed.

Lemma replace_char_app (x r : string) (a : ascii) (new : string) :
  Str.replace_go 0 (x +:+ r) (String a "") new
  = Str.replace_go 0 x (String a "") new +:+ Str.replace_go 0 r (String a "") new.
Proof.
  induction x as [| c x IH]; [done |].
  by rewrite str_app_cons, !replace_char_cons, IH, str_app_assoc.
Qed.

Lemma unquote_plain (c : ascii) (s : string) :
  c ≠ "%"%char → Sample.unquote (String c s) = String c (Sample.unquote s).
Proof.
  intros Hc%Ascii.eqb_neq. cbn [Sample.unquote]. rewrite Hc.
  by destruct s as [| a [| b rest]].
Qed.

(** Decoding one encoded byte gives the byte. *)
Lemma decode_byte (c : ascii) (rest : string) :
  Sample.unquote (Str.replace_go 0 (Urllib.quote_plus_byte c) "+" " " +:+ rest)
  = String c (Sample.unquote rest).
Proof.
  destruct c as [[] [] [] [] [] [] [] []];
    match goal with
    | |- Sample.unquote (?p +:+ rest) = _ =>
        let p' := eval vm_compute in p in change p with p'
    end;
    rewrite ?str_app_cons, str_app_nil_l;
    first [apply unquote_plain; discriminate | reflexivity].
Qed.

(** Decoding ([+] to a space, then [%XX] to its byte) undoes
    [quote_plus]. *)
Lemma decode_quote_plus (s : string) :
  Sample.unquote (Str.replace (Urllib.quote_plus s) "+" " ") = s.
Proof.
  cbn [Str.replace]. induction s as [| c s IH]; [done |].
  cbn [Urllib.quote_plus]. by rewrite replace_char_app, decode_byte, IH.
Qed.

Section url_encode.
Context `{Library}.

(** X14. An encoded value is made of letters, digits and [_.-~+%] only;
    in particular it has no slash, question mark, hash, ampersand, equals
    sign, colon, space or brace, so a value cannot add a path segment, a
    query string or a placeholder to the URL. *)
Theorem url_encode_is_url_safe (val : pyval) :
  Str.all_chars url_safe (GitLabStream._url_encode val) = true
  ∧ ∀ c, Str.has_char "/?#&=: {}" c = true →
         Str.has_char (GitLabStream._url_encode val) c = false.
Proof.
  pose proof (quote_plus_url_safe (py_str val)) as Hsafe.
  split; [exact Hsafe |]. intros c Hc.
  apply (all_chars_has_char _ _ _ Hsafe).
  cbn [Str.has_char] in Hc.
  repeat (apply orb_prop in Hc as [Hc | Hc];
          [apply Ascii.eqb_eq in Hc as <-; reflexivity |]).
  discriminate.
Qed.

(** X15. A string of letters, digits and [_.-~] is its own encoding. *)
Theorem url_encode_keeps_safe_text (s : string) :
  Str.all_chars Urllib.always_safe s = true →
  GitLabStream._url_encode (PStr s) = s.
Proof. apply quote_plus_safe_text. Qed.

(** X16. Different strings have different encodings. *)
Theorem url_encode_injective (s1 s2 : string) :
  s1 ≠ s2 →
  GitLabStream._url_encode (PStr s1) ≠ GitLabStream._url_encode (PStr s2).
Proof.
  intros Hne Henc. apply Hne. unfold GitLabStream._url_encode in Henc.
  cbn [py_str] in Henc.
  by rewrite <- (decode_quote_plus s1), <- (decode_quote_plus s2), Henc.
Qed.

End url_encode.

(** ** The URL resolver, continued *)

Lemma contains_needs_first_char (s : string) (a : ascii) (o : string) :
  Str.has_char s a = false → Str.contains s (String a o) = false.
Proof.
  induction s as [| c s IH]; [done |]. cbn [Str.has_char].
  intros [Hc Hs]%orb_false_elim. cbn [Str.contains Str.startswith].
  by rewrite Ascii.eqb_sym, Hc, IH.
Qed.

Lemma brace_free_app (s t : string) :
  Template.brace_free (s +:+ t) = Template.brace_free s && Template.brace_free t.
Proof.
  induction s as [| c s IH]; [done |].
  rewrite str_app_cons. cbn [Template.brace_free]. by rewrite IH, andb_assoc.
Qed.

Lemma brace_free_of_has_char (s : string) :
  Str.has_char s "{" = false → Str.has_char s "}" = false →
  Template.brace_free s = true.
Proof.
  induction s as [| c s IH]; [done |]. cbn [Str.has_char Template.brace_free].
  intros [Ho Hos]%orb_false_elim [Hc Hcs]%orb_false_elim.
  rewrite IH by done. unfold Template.is_brace.
  by rewrite Ho, Hc.
Qed.

Lemma dict_get_list_to_map {V} (key : string) (d : dict V) :
  dict_get key d = (list_to_map d : gmap string V) !! key.
Proof.
  induction d as [| [k v] d IH]; [done |]. cbn [dict_get list_to_map foldr].
  destruct (String.eqb_spec k key) as [-> | ?].
  - by rewrite lookup_insert_eq.
  - by rewrite lookup_insert_ne.
Qed.

(** On dictionaries proper, the order of the items does not matter to a
    lookup. *)
Lemma dict_get_perm {V} (key : string) (d d' : dict V) :
  NoDup d.*1 → d ≡ₚ d' → dict_get key d = dict_get key d'.
Proof.
  intros Hdup Hperm.
  by rewrite !dict_get_list_to_map, (list_to_map_proper d d').
Qed.

Section get_url_more.
Context `{Library}.

(** With braces only around names and no brace in a key, the loop of
    [get_url] amounts to one pass over the template. *)
Lemma get_url_one_pass
    (self : Stream) (context : option (dict pyval)) (base : string) :
  GitLabStream.url_base self = Ok base →
  Template.well_braced (base +:+ default "" (path self)) = true →
  Forall (λ kv, Template.brace_free kv.1 = true) (config self) →
  Forall (λ kv, Template.brace_free kv.1 = true) (default [] context) →
  NoDup (default [] context).*1 →
  GitLabStream.get_url self context
  = Ok (Template.resolve GitLabStream._url_encode
          (Template.merged (config self) (default [] context))
          (Template.scan (base +:+ default "" (path self)))).
Proof.
  intros Hbase Hwell Hconfig Hcontext Hdup.
  unfold GitLabStream.get_url. rewrite Hbase, bind_Ok. f_equal.
  change (Str.join "" [base; default "" (path self)])
    with (base +:+ default "" (path self)).
  pose proof (get_url_loop _ _ Hwell
                (dict_update_keys (λ k, Template.brace_free k = true)
                   _ Hcontext _ Hconfig) []) as Hloop.
  cbn [app dict_get] in Hloop. rewrite resolve_nothing, flat_scan in Hloop.
  rewrite Hloop. apply resolve_ext. intros key. by apply dict_get_update.
Qed.

(** X17. A URL template without an opening brace is returned as it is,
    whatever the configuration and the context hold. *)
Theorem get_url_keeps_template_without_brace
    (self : Stream) (context : option (dict pyval)) (base : string) :
  GitLabStream.url_base self = Ok base →
  Str.has_char (base +:+ default "" (path self)) "{" = false →
  GitLabStream.get_url self context = Ok (base +:+ default "" (path self)).
Proof.
  intros Hbase Hbrace. unfold GitLabStream.get_url. rewrite Hbase, bind_Ok.
  f_equal.
  change (Str.join "" [base; default "" (path self)])
    with (base +:+ default "" (path self)).
  induction (dict_update (config self) (default [] context)) as [| item vals IH];
    [done |].
  cbn [fold_left]. unfold GitLabStream.get_url_step at 2.
  change (Str.join "" ["{"; item.1; "}"]) with (String "{" (item.1 +:+ "}")).
  by rewrite contains_needs_first_char.
Qed.

(** X18. With braces only around names and no brace in a key, the order
    of the items of the context does not matter to the URL. *)
Theorem get_url_ignores_context_order
    (self : Stream) (context context' : dict pyval) (base : string) :
  GitLabStream.url_base self = Ok base →
  Template.well_braced (base +:+ default "" (path self)) = true →
  Forall (λ kv, Template.brace_free kv.1 = true) (config self) →
  Forall (λ kv, Template.brace_free kv.1 = true) context →
  NoDup context.*1 →
  context ≡ₚ context' →
  GitLabStream.get_url self (Some context')
  = GitLabStream.get_url self (Some context).
Proof.
  intros Hbase Hwell Hconfig Hcontext Hdup Hperm.
  rewrite !(get_url_one_pass _ _ base) by
    (done || (by rewrite <- Hperm) || (cbn [default]; by rewrite <- Hperm)).
  f_equal. apply resolve_ext. intros key. unfold Template.merged.
  cbn [from_option id]. by rewrite (dict_get_perm key context context').
Qed.

Lemma resolve_brace_free (vals : string → option pyval)
    (segs : list Template.segment) :
  forallb Template.plain segs = true →
  (∀ key, Template.Hole key ∈ segs → is_Some (vals key)) →
  Template.brace_free (Template.resolve GitLabStream._url_encode vals segs) = true.
Proof.
  induction segs as [| seg segs IH]; [done |]. cbn [forallb].
  intros [Hseg Hsegs]%andb_prop Hfilled. cbn [Template.resolve].
  rewrite brace_free_app, IH; [| done | intros key ?; apply Hfilled; by right].
  rewrite andb_true_r. destruct seg as [c | key]; cbn [Template.fill].
  - cbn [Template.plain] in Hseg. cbn [Template.brace_free]. by rewrite Hseg.
  - destruct (Hfilled key) as [v ->]; [by left |].
    by apply brace_free_of_has_char; apply url_encode_no_brace.
Qed.

(** X19. With braces only around names and no brace in a key, a URL
    whose every placeholder has a value in the configuration or the
    context comes out without any brace. *)
Theorem get_url_leaves_no_brace
    (self : Stream) (context : option (dict pyval)) (base url : string) :
  GitLabStream.url_base self = Ok base →
  Template.well_braced (base +:+ default "" (path self)) = true →
  Forall (λ kv, Template.brace_free kv.1 = true) (config self) →
  Forall (λ kv, Template.brace_free kv.1 = true) (default [] context) →
  NoDup (default [] context).*1 →
  forallb (λ seg,
      match seg with
      | Template.Hole key =>
          bool_decide
            (is_Some (Template.merged (config self) (default [] context) key))
      | Template.Lit _ => true
      end) (Template.scan (base +:+ default "" (path self))) = true →
  GitLabStream.get_url self context = Ok url →
  Template.brace_free url = true.
Proof.
  intros Hbase Hwell Hconfig Hcontext Hdup Hfilled.
  rewrite (get_url_one_pass _ _ base) by done. intros [= <-].
  apply resolve_brace_free; [done |]. intros key Hin.
  rewrite forallb_forall in Hfilled.
  apply list_elem_of_In, Hfilled in Hin. by apply bool_decide_eq_true in Hin.
Qed.

End get_url_more.

(** ** Query parameters *)

Lemma dict_get_plain (key : string) (d : dict pyval) :
  dict_get key (prod_map id Plain <$> d) = Plain <$> dict_get key d.
Proof.
  induction d as [| [k v] d IH]; [done |].
  cbn [fmap list_fmap prod_map fst snd id dict_get].
  fold (fmap (M:=list) (prod_map (@id string) Plain) d).
  by destruct (String.eqb k key).
Qed.

Section get_url_params.
Context `{Framework}.

(** What [get_url_params] holds under each name: a later assignment
    wins over an earlier one of the same name. *)
Lemma get_url_params_lookup
    (self : Stream) (extra_url_params context : option (dict pyval))
    (next_page_token : option string) (key : string) :
  dict_get key (GitLabStreamParams.get_url_params self extra_url_params
                  context next_page_token)
  = let inherited :=
      match next_page_token with
      | Some (String _ _ as token) =>
          if String.eqb "page" key then Some (Plain (PStr token))
          else Plain <$> dict_get key (default [] extra_url_params)
      | _ => Plain <$> dict_get key (default [] extra_url_params)
      end in
    match replication_key self with
    | Some (String _ _ as replication_key) =>
        if is_timestamp_replication_key self
           && String.eqb (bookmark_param_name self) key
        then Some (Timestamp (get_starting_timestamp self context))
        else if String.eqb "order_by" key then Some (Plain (PStr replication_key))
        else if String.eqb "sort" key then Some (Plain (PStr "asc"))
        else inherited
    | _ => inherited
    end.
Proof.
  unfold GitLabStreamParams.get_url_params. cbn zeta.
  assert (dict_get key
            match next_page_token with
            | Some (String _ _ as token) =>
                dict_set "page" (Plain (PStr token))
                  (prod_map id Plain <$> default [] extra_url_params)
            | _ => prod_map id Plain <$> default [] extra_url_params
            end
          = match next_page_token with
            | Some (String _ _ as token) =>
                if String.eqb "page" key then Some (Plain (PStr token))
                else Plain <$> dict_get key (default [] extra_url_params)
            | _ => Plain <$> dict_get key (default [] extra_url_params)
            end) as Hpage.
  { destruct next_page_token as [[| c token] |];
      by rewrite ?dict_get_set, dict_get_plain. }
  destruct (replication_key self) as [[| c rk] |]; [done | | done].
  destruct (is_timestamp_replication_key self); cbn [andb];
    by rewrite !dict_get_set, Hpage.
Qed.

(** X20. The page asked for next is the one the response named: fed
    with the native token, the parameters hold the value of a non-empty
    [X-Next-Page] header under [page]; with the header absent or empty
    (the last page) they hold under [page] only what the stream's extra
    parameters do. This is for a bookmark parameter not itself called
    [page]. *)
Theorem page_param_follows_next_page_header
    (self : Stream) (extra_url_params context : option (dict pyval))
    (response : Response) (previous_token : option string) :
  bookmark_param_name self ≠ "page" →
  dict_get "page"
    (GitLabStreamParams.get_url_params self extra_url_params context
       (GitLabStream.get_next_page_token self response previous_token))
  = match store (headers response) !! "x-next-page" with
    | Some (String _ _ as value) => Some (Plain (PStr value))
    | _ => Plain <$> dict_get "page" (default [] extra_url_params)
    end.
Proof.
  intros Hname%String.eqb_neq. rewrite get_url_params_lookup. cbn zeta.
  rewrite Hname, andb_false_r.
  unfold GitLabStream.get_next_page_token, cid_get.
  change (Str.lower "X-Next-Page") with "x-next-page".
  change (String.eqb "order_by" "page") with false.
  change (String.eqb "sort" "page") with false.
  change (String.eqb "page" "page") with true. cbn iota.
  destruct (replication_key self) as [[| c rk] |]; done.
Qed.

(** X21. The stream's extra parameters are all sent along: under a name
    other than [page], [sort], [order_by] and the bookmark parameter, the
    parameters hold what the extra parameters hold. *)
Theorem extra_url_params_are_kept
    (self : Stream) (extra_url_params context : option (dict pyval))
    (next_page_token : option string) (key : string) :
  key ≠ "page" → key ≠ "sort" → key ≠ "order_by" →
  key ≠ bookmark_param_name self →
  dict_get key (GitLabStreamParams.get_url_params self extra_url_params
                  context next_page_token)
  = Plain <$> dict_get key (default [] extra_url_params).
Proof.
  intros Hpage Hsort Horder Hmark. rewrite get_url_params_lookup. cbn zeta.
  assert (String.eqb "page" key = false) as -> by by apply String.eqb_neq.
  assert (String.eqb "sort" key = false) as -> by by apply String.eqb_neq.
  assert (String.eqb "order_by" key = false) as -> by by apply String.eqb_neq.
  assert (String.eqb (bookmark_param_name self) key = false) as ->
    by by apply String.eqb_neq.
  rewrite andb_false_r.
  by destruct (replication_key self) as [[| ? ?] |],
              next_page_token as [[| ? ?] |].
Qed.

(** X22. A bookmark is never sent without its ordering: for a stream
    with a timestamp replication key, and a bookmark parameter not called
    [sort] or [order_by], the parameters hold the starting timestamp
    under the bookmark parameter, [asc] under [sort] and the replication
    key under [order_by]; for a stream without a replication key they
    hold none of the three beyond the extra parameters. *)
Theorem bookmark_goes_with_ascending_order
    (self : Stream) (extra_url_params context : option (dict pyval))
    (next_page_token : option string) :
  bookmark_param_name self ≠ "sort" →
  bookmark_param_name self ≠ "order_by" →
  let params := GitLabStreamParams.get_url_params self extra_url_params
                  context next_page_token in
  match replication_key self with
  | Some (String _ _ as key) =>
      dict_get "sort" params = Some (Plain (PStr "asc"))
      ∧ dict_get "order_by" params = Some (Plain (PStr key))
      ∧ (is_timestamp_replication_key self = true →
         dict_get (bookmark_param_name self) params
         = Some (Timestamp (get_starting_timestamp self context)))
  | _ =>
      ∀ key, key ≠ "page" →
        dict_get key params = Plain <$> dict_get key (default [] extra_url_params)
  end.
Proof.
  intros Hsort%String.eqb_neq Horder%String.eqb_neq. cbn zeta.
  destruct (replication_key self) as [[| c rk] |] eqn:Hrk.
  - intros key Hkey%String.eqb_neq. rewrite String.eqb_sym in Hkey.
    rewrite get_url_params_lookup, Hrk. cbn zeta. rewrite ?Hkey.
    by destruct next_page_token as [[| ? ?] |].
  - repeat split.
    + rewrite get_url_params_lookup, Hrk. cbn zeta.
      by rewrite Hsort, andb_false_r.
    + rewrite get_url_params_lookup, Hrk. cbn zeta.
      by rewrite Horder, andb_false_r.
    + intros Hts. rewrite get_url_params_lookup, Hrk. cbn zeta.
      by rewrite Hts, String.eqb_refl.
  - intros key Hkey%String.eqb_neq. rewrite String.eqb_sym in Hkey.
    rewrite get_url_params_lookup, Hrk. cbn zeta. rewrite ?Hkey.
    by destruct next_page_token as [[| ? ?] |].
Qed.

End get_url_params.

(** ** Further runs on concrete streams, requests and responses *)

(** X1 at the request with [since=2021-01-01T00:00:00+00:00]. *)
Lemma cutoff_has_no_space_witness :
  @NoSinceProjectBasedStream.cutoff_of Sample.library
      Examples.notes Examples.old_page
    = Ok (Some "2021-01-01T00:00:00+00:00")
  ∧ Str.has_char "2021-01-01T00:00:00+00:00" " " = false.
Proof.
  assert (@NoSinceProjectBasedStream.cutoff_of Sample.library
      Examples.notes Examples.old_page
    = Ok (Some "2021-01-01T00:00:00+00:00")) as Hc by (vm_compute; reflexivity).
  split; [exact Hc |].
  exact (@cutoff_has_no_space Sample.library _ _ _ Hc).
Defined.

(** X2 at the same request: [parse_qs] reads [2021-01-01T00:00:00 00:00]
    and the cutoff is [2021-01-01T00:00:00+00:00] again. *)
Lemma cutoff_restores_plus_witness :
  Sample.parse_qs "sort=asc&since=2021-01-01T00:00:00+00:00" !! "since"
    = Some [Str.replace "2021-01-01T00:00:00+00:00" "+" " "]
  ∧ Str.has_char "2021-01-01T00:00:00+00:00" " " = false
  ∧ @NoSinceProjectBasedStream.cutoff_of Sample.library
      Examples.notes Examples.old_page
    = Ok (Some "2021-01-01T00:00:00+00:00").
Proof.
  assert (Sample.parse_qs "sort=asc&since=2021-01-01T00:00:00+00:00" !! "since"
    = Some [Str.replace "2021-01-01T00:00:00+00:00" "+" " "]) as Hq
    by (vm_compute; reflexivity).
  split; [exact Hq |]. split; [reflexivity |].
  exact (@cutoff_restores_plus Sample.library Examples.notes Examples.old_page
           {| scheme := "https"; netloc := "gitlab.com";
              url_path := "/api/v4/projects/7/issues/3/notes"; params := "";
              query := "sort=asc&since=2021-01-01T00:00:00+00:00";
              fragment := "" |}
           "2021-01-01T00:00:00+00:00" [] eq_refl Hq eq_refl).
Defined.

(** X3 at the page that ends the pagination. *)
Lemma emulated_token_is_none_or_native_witness :
  @NoSinceProjectBasedStream.get_next_page_token Sample.library
      Examples.notes Examples.old_page None = Ok None
  ∧ (@None string = None
     ∨ None = GitLabStream.get_next_page_token Examples.notes Examples.old_page None).
Proof.
  assert (@NoSinceProjectBasedStream.get_next_page_token Sample.library
      Examples.notes Examples.old_page None = Ok None) as Hrun
    by (vm_compute; reflexivity).
  split; [exact Hrun |].
  exact (@emulated_token_is_none_or_native Sample.library _ _ _ _ Hrun).
Defined.

(** X4 at a page whose last record, of 2021-01-03, is newer than the
    cutoff 2021-01-01: the native token ["3"]. *)
Lemma newer_last_record_defers_witness :
  @NoSinceProjectBasedStream.cutoff_of Sample.library
      Examples.notes Cases.new_page
    = Ok (Some "2021-01-01T00:00:00Z")
  ∧ @NoSinceProjectBasedStream.get_next_page_token Sample.library
      Examples.notes Cases.new_page None = Ok (Some "3").
Proof.
  assert (@NoSinceProjectBasedStream.cutoff_of Sample.library
      Examples.notes Cases.new_page
    = Ok (Some "2021-01-01T00:00:00Z")) as Hc by (vm_compute; reflexivity).
  split; [exact Hc |].
  exact (@newer_last_record_defers Sample.library Examples.notes
           Cases.new_page None _
           [Examples.note 1 "2021-01-02T10:00:00Z";
            Examples.note 2 "2021-01-03T10:00:00Z"]
           (Examples.note 2 "2021-01-03T10:00:00Z")
           (PStr "2021-01-03T10:00:00Z")
           {| dt_micros := 1609668000000000; dt_aware := true |}
           {| dt_micros := 1609459200000000; dt_aware := true |}
           Hc eq_refl eq_refl eq_refl eq_refl eq_refl eq_refl).
Defined.

(** X5 at two pages that differ before their common last record. *)
Lemma only_last_record_matters_witness :
  json Cases.new_page ≠ json Cases.new_page_other_head
  ∧ @NoSinceProjectBasedStream.get_next_page_token Sample.library
      Examples.notes Cases.new_page None
    = @NoSinceProjectBasedStream.get_next_page_token Sample.library
      Examples.notes Cases.new_page_other_head None.
Proof.
  split; [discriminate |].
  exact (@only_last_record_matters Sample.library Examples.notes
           Cases.new_page Cases.new_page_other_head None _ _
           (Examples.note 2 "2021-01-03T10:00:00Z")
           eq_refl eq_refl eq_refl eq_refl eq_refl eq_refl).
Defined.

(** X6 at a page whose last record has no [updated_at]. *)
Lemma missing_replication_key_raises_witness :
  @NoSinceProjectBasedStream.get_next_page_token Sample.library
      Examples.notes Cases.keyless_page None = Raise KeyError.
Proof.
  assert (@NoSinceProjectBasedStream.cutoff_of Sample.library
      Examples.notes Cases.keyless_page
    = Ok (Some "2021-01-01T00:00:00Z")) as Hc by (vm_compute; reflexivity).
  exact (@missing_replication_key_raises Sample.library Examples.notes
           Cases.keyless_page None _
           [Examples.note 1 "2021-01-02T10:00:00Z"; PDict [("id", PInt 2)]]
           [("id", PInt 2)] Hc eq_refl eq_refl eq_refl).
Defined.

(** X7 at a last record without an offset against a cutoff with one. *)
Lemma naive_against_aware_raises_witness :
  @NoSinceProjectBasedStream.get_next_page_token Sample.library
      Examples.notes Cases.naive_page None = Raise TypeError.
Proof.
  assert (@NoSinceProjectBasedStream.cutoff_of Sample.library
      Examples.notes Cases.naive_page
    = Ok (Some "2021-01-01T00:00:00Z")) as Hc by (vm_compute; reflexivity).
  refine (@naive_against_aware_raises Sample.library Examples.notes
           Cases.naive_page None _
           [Examples.note 1 "2020-12-31T23:00:00"]
           (Examples.note 1 "2020-12-31T23:00:00")
           (PStr "2020-12-31T23:00:00")
           {| dt_micros := 1609455600000000; dt_aware := false |}
           {| dt_micros := 1609459200000000; dt_aware := true |}
           Hc eq_refl eq_refl eq_refl eq_refl eq_refl _).
  discriminate.
Defined.

(** X9 at the record [{"id": 5}] of project 7, issue 3. *)
Lemma post_process_appends_in_context_order_witness :
  @GitLabStream.post_process Sample.library Examples.notes [("id", PInt 5)]
    (Some [("project_id", PInt 7); ("issue_iid", PInt 3); ("id", PInt 0)])
  = Ok (Some [("id", PInt 5); ("project_id", PInt 7)]).
Proof.
  refine (@post_process_appends_in_context_order Sample.library Examples.notes
            [("id", PInt 5)]
            [("project_id", PInt 7); ("issue_iid", PInt 3); ("id", PInt 0)]
            [("id", PInt 5)]
            [("id", PDict []); ("project_id", PDict []); ("updated_at", PDict [])]
            eq_refl eq_refl _).
  apply (bool_decide_unpack _). vm_compute. exact I.
Defined.

(** X10 at the record that came out of the run above. *)
Lemma post_process_idempotent_witness :
  @GitLabStream.post_process Sample.library Examples.notes
    [("id", PInt 5); ("project_id", PInt 7)]
    (Some [("project_id", PInt 7); ("issue_iid", PInt 3); ("id", PInt 0)])
  = Ok (Some [("id", PInt 5); ("project_id", PInt 7)]).
Proof.
  exact (@post_process_idempotent Sample.library Examples.notes
           [("id", PInt 5)]
           [("project_id", PInt 7); ("issue_iid", PInt 3); ("id", PInt 0)]
           [("id", PInt 5); ("project_id", PInt 7)]
           [("id", PDict []); ("project_id", PDict []); ("updated_at", PDict [])]
           eq_refl eq_refl eq_refl).
Defined.

(** X11 at a record the framework keeps: it is not discarded. *)
Lemma post_process_discards_iff_witness :
  @GitLabStream.post_process Sample.library Examples.notes [("id", PInt 5)]
    (Some [("project_id", PInt 7)]) ≠ Ok None.
Proof.
  intros Hnone.
  apply (@post_process_discards_iff Sample.library Examples.notes
           [("id", PInt 5)] (Some [("project_id", PInt 7)])
           [("id", PDict []); ("project_id", PDict []); ("updated_at", PDict [])]
           eq_refl) in Hnone.
  discriminate Hnone.
Defined.

(** X12 at the API root given with a trailing slash. *)
Lemma url_base_never_ends_with_slash_witness :
  @GitLabStream.url_base Sample.library Examples.self_hosted
    = Ok "https://gitlab.com/api/v4"
  ∧ last_char "https://gitlab.com/api/v4" ≠ Some "/"%char.
Proof.
  split; [reflexivity |].
  exact (@url_base_never_ends_with_slash Sample.library Examples.self_hosted
           _ eq_refl).
Defined.

(** X13 at [https://gitlab.com] and [https://gitlab.com/]. *)
Lemma url_base_ignores_trailing_slash_witness :
  @GitLabStream.url_base Sample.library Examples.self_hosted
  = @GitLabStream.url_base Sample.library Examples.bare_host.
Proof.
  exact (@url_base_ignores_trailing_slash Sample.library Examples.bare_host
           Examples.self_hosted "https://gitlab.com" eq_refl eq_refl).
Defined.

(** X15 at a project name. *)
Lemma url_encode_keeps_safe_text_witness :
  @GitLabStream._url_encode Sample.library (PStr "tap-gitlab_v2.0~rc")
  = "tap-gitlab_v2.0~rc".
Proof.
  exact (@url_encode_keeps_safe_text Sample.library "tap-gitlab_v2.0~rc" eq_refl).
Defined.

(** X16 at [a b] and [a+b], encoded as [a+b] and [a%2Bb]. *)
Lemma url_encode_injective_witness :
  @GitLabStream._url_encode Sample.library (PStr "a b")
  ≠ @GitLabStream._url_encode Sample.library (PStr "a+b").
Proof.
  refine (@url_encode_injective Sample.library "a b" "a+b" _). discriminate.
Defined.

(** X17 at a path without a placeholder. *)
Lemma get_url_keeps_template_without_brace_witness :
  @GitLabStream.get_url Sample.library CasesParams.all_groups
    (Some [("group_id", PStr "10")])
  = Ok "https://gitlab.com/api/v4/groups".
Proof.
  exact (@get_url_keeps_template_without_brace Sample.library
           CasesParams.all_groups (Some [("group_id", PStr "10")])
           "https://gitlab.com/api/v4" eq_refl eq_refl).
Defined.

(** X18 at the notes path with the two keys of the context swapped. *)
Lemma get_url_ignores_context_order_witness :
  @GitLabStream.get_url Sample.library Examples.notes
    (Some [("issue_iid", PInt 3); ("project_id", PInt 7)])
  = @GitLabStream.get_url Sample.library Examples.notes
    (Some [("project_id", PInt 7); ("issue_iid", PInt 3)]).
Proof.
  refine (@get_url_ignores_context_order Sample.library Examples.notes
            [("project_id", PInt 7); ("issue_iid", PInt 3)]
            [("issue_iid", PInt 3); ("project_id", PInt 7)]
            "https://gitlab.com/api/v4" eq_refl eq_refl _ _ _ _).
  - repeat constructor.
  - repeat constructor.
  - apply (bool_decide_unpack _). vm_compute. exact I.
  - apply perm_swap.
Defined.

(** X19 at the notes path with both placeholders given. *)
Lemma get_url_leaves_no_brace_witness :
  @GitLabStream.get_url Sample.library Examples.notes
    (Some [("project_id", PInt 7); ("issue_iid", PInt 3)])
    = Ok "https://gitlab.com/api/v4/projects/7/issues/3/notes"
  ∧ Template.brace_free "https://gitlab.com/api/v4/projects/7/issues/3/notes"
    = true.
Proof.
  assert (@GitLabStream.get_url Sample.library Examples.notes
    (Some [("project_id", PInt 7); ("issue_iid", PInt 3)])
    = Ok "https://gitlab.com/api/v4/projects/7/issues/3/notes") as Hrun
    by (vm_compute; reflexivity).
  split; [exact Hrun |].
  refine (@get_url_leaves_no_brace Sample.library Examples.notes
            (Some [("project_id", PInt 7); ("issue_iid", PInt 3)])
            "https://gitlab.com/api/v4" _ eq_refl eq_refl _ _ _ _ Hrun).
  - repeat constructor.
  - repeat constructor.
  - apply (bool_decide_unpack _). vm_compute. exact I.
  - vm_compute. reflexivity.
Defined.

(** X20 at a response with [X-Next-Page: 3]. *)
Lemma page_param_follows_next_page_header_witness :
  dict_get "page"
    (@GitLabStreamParams.get_url_params CasesParams.framework Examples.notes
       None None (GitLabStream.get_next_page_token Examples.notes Cases.new_page None))
  = Some (Plain (PStr "3")).
Proof.
  refine (@page_param_follows_next_page_header CasesParams.framework
            Examples.notes None None Cases.new_page None _).
  discriminate.
Defined.

(** X21 at an extra parameter [per_page]. *)
Lemma extra_url_params_are_kept_witness :
  dict_get "per_page"
    (@GitLabStreamParams.get_url_params CasesParams.framework Examples.notes
       (Some [("per_page", PInt 100)]) None (Some "3"))
  = Some (Plain (PInt 100)).
Proof.
  refine (@extra_url_params_are_kept CasesParams.framework Examples.notes
            (Some [("per_page", PInt 100)]) None (Some "3") "per_page" _ _ _ _);
    discriminate.
Defined.

(** X22 at the notes stream, ordered by [updated_at]. *)
Lemma bookmark_goes_with_ascending_order_witness :
  dict_get "sort"
    (@GitLabStreamParams.get_url_params CasesParams.framework Examples.notes
       None None None) = Some (Plain (PStr "asc"))
  ∧ dict_get "order_by"
      (@GitLabStreamParams.get_url_params CasesParams.framework Examples.notes
         None None None) = Some (Plain (PStr "updated_at"))
  ∧ dict_get "since"
      (@GitLabStreamParams.get_url_params CasesParams.framework Examples.notes
         None None None)
    = Some (Timestamp (Some {| dt_micros := 1609459200000000; dt_aware := true |})).
Proof.
  destruct (@bookmark_goes_with_ascending_order CasesParams.framework
              Examples.notes None None None)
    as (Hsort & Horder & Hmark); [discriminate.. |].
  split; [exact Hsort |]. split; [exact Horder |]. exact (Hmark eq_refl).
Defined.
